(** * update_backup_version.py: the format-preserving plist editor

    A shallow embedding of the read-modify-write core of
    [update_backup_version.py] and the properties its specification
    states about it.

    - The file system is a finite map from path names to files; every
      function that touches the disk is a computation in the monad [M]
      (state = the file system, result = a value or a Python exception).
    - What the operating system decides (the names the temporary-file
      generator proposes, which system calls fail) is read from an
      environment record [env], one per call.
    - [plistlib] is not part of the program: its [load] and [dump] are the
      two operations of the class [Plistlib].
    - A loaded document is a tree of Python objects.  The program mutates
      nested dictionaries through references ([node = node[k]],
      [plist_data[key] = value]); the model keeps the whole tree as the
      store and represents a reference to a nested dictionary by its access
      path from the root, so that a mutation through the reference is seen
      from the root, as in Python.  (Documents come from [plistlib.load]
      and are taken to be trees.)
    - The command-line program [main] is a computation on a [world]: the
      disk, the lines of the standard input and the lines written to the
      standard output; it ends by returning, by [sys.exit] or with an
      exception nobody caught. *)

From Stdlib Require Import Strings.Ascii Strings.Byte.
From stdpp Require Import gmap strings list fin_maps.

Set Warnings "-register-all".
Set Default Proof Using "Type".

(** ** Python exceptions *)

(** The exceptions the modelled code can raise.  The specification calls
    [FileNotFoundError] NotFound, [InvalidFileException] ParseError,
    [ValueError] InvalidStructure and [OSError] IOFailure. *)
Inductive exn :=
  | FileNotFoundError
  | FileExistsError
  | InvalidFileException
  | ValueError (msg : string)
  | TypeError
  | AttributeError
  | OSError.

(** ** Files and the file system *)

Record file := File { content : list byte; mode : N }.

Abbreviation fs := (gmap string file).

(** What the operating system contributes to one call. *)
Record env := Env {
  tmp_names : list string;      (* the names tempfile's random sequence yields *)
  partial_write : list byte;    (* what a dump that fails leaves in its file *)
  write_fails : bool;           (* writing the temporary file raises OSError *)
  stat_fails : bool;            (* os.stat raises other than FileNotFoundError *)
  chmod_fails : bool;
  replace_fails : bool;
  remove_fails : bool;
  copy_fails : bool
}.

(** ** The monad of file-system computations *)

Definition M (A : Type) : Type := fs → (exn + A) * fs.

Global Instance M_ret : MRet M := λ A x s, (inr x, s).

Global Instance M_bind : MBind M := λ A B f m s,
  match m s with
  | (inr x, s') => f x s'
  | (inl err, s') => (inl err, s')
  end.

Definition raise {A} (err : exn) : M A := λ s, (inl err, s).

(** [lift r]: a computation that did not touch the disk. *)
Definition lift {A} (r : exn + A) : M A := λ s, (r, s).

(** [try: body except FileNotFoundError: pass] *)
Definition except_FileNotFoundError (body : M unit) : M unit := λ s,
  match body s with
  | (inl FileNotFoundError, s') => (inr tt, s')
  | r => r
  end.

(** [try: body except Exception: pass] *)
Definition except_Exception (body : M unit) : M unit := λ s,
  match body s with
  | (inl _, s') => (inr tt, s')
  | r => r
  end.

(** [try: body finally: handler]: the handler runs on every exit of the
    body; the body's outcome stands unless the handler itself raises. *)
Definition try_finally {A} (body : M A) (handler : M unit) : M A := λ s,
  match body s with
  | (r, s1) =>
      match handler s1 with
      | (inl err, s2) => (inl err, s2)
      | (inr _, s2) => (r, s2)
      end
  end.

(** ** System calls *)

Definition os_path_exists (p : string) : M bool := λ s,
  (inr (bool_decide (is_Some (s !! p))), s).

(** [open(p, 'rb')] followed by reading the first [n] bytes or everything. *)
Definition read_bytes (p : string) (n : option nat) : M (list byte) := λ s,
  match s !! p with
  | Some f => (inr (match n with Some k => take k (content f) | None => content f end), s)
  | None => (inl FileNotFoundError, s)
  end.

(** [open(p, 'wb')] truncates an existing file and keeps its mode; a new
    file gets the default mode [0o644]. *)
Definition set_content (p : string) (bs : list byte) (s : fs) : fs :=
  match s !! p with
  | Some f => <[p := File bs (mode f)]> s
  | None => <[p := File bs 420]> s
  end.

Definition os_stat (e : env) (p : string) : M N := λ s,
  match s !! p with
  | None => (inl FileNotFoundError, s)
  | Some f => if stat_fails e then (inl OSError, s) else (inr (mode f), s)
  end.

Definition os_chmod (e : env) (p : string) (m : N) : M unit := λ s,
  match s !! p with
  | None => (inl FileNotFoundError, s)
  | Some f => if chmod_fails e then (inl OSError, s)
              else (inr tt, <[p := File (content f) m]> s)
  end.

Definition os_replace (e : env) (src dst : string) : M unit := λ s,
  match s !! src with
  | None => (inl FileNotFoundError, s)
  | Some f => if replace_fails e then (inl OSError, s)
              else (inr tt, <[dst := f]> (delete src s))
  end.

Definition os_remove (e : env) (p : string) : M unit := λ s,
  match s !! p with
  | None => (inl FileNotFoundError, s)
  | Some _ => if remove_fails e then (inl OSError, s) else (inr tt, delete p s)
  end.

(** [shutil.copy2]: contents and metadata. *)
Definition shutil_copy2 (e : env) (src dst : string) : M unit := λ s,
  match s !! src with
  | None => (inl FileNotFoundError, s)
  | Some f => if copy_fails e then (inl OSError, s) else (inr tt, <[dst := f]> s)
  end.

(** [os.path.dirname] and [os.path.join] of posixpath, on character lists. *)
Definition slash : ascii := "/"%char.

Definition is_slash (c : ascii) : bool := Ascii.eqb c slash.

Fixpoint drop_while (p : ascii → bool) (l : list ascii) : list ascii :=
  match l with
  | [] => []
  | c :: l' => if p c then drop_while p l' else l
  end.

Definition rstrip_slash (l : list ascii) : list ascii :=
  rev (drop_while is_slash (rev l)).

Definition os_path_dirname (p : string) : string :=
  let head := rev (drop_while (λ c, negb (is_slash c)) (rev (String.list_ascii_of_string p))) in
  String.string_of_list_ascii
    (if negb (bool_decide (head = [])) && negb (forallb is_slash head)
     then rstrip_slash head else head).

Definition os_path_join (a b : string) : string :=
  match rev (String.list_ascii_of_string a) with
  | [] => b
  | c :: _ => if is_slash c then a +:+ b else a +:+ "/" +:+ b
  end.

(** [tempfile.mkstemp(prefix=..., dir=...)]: the first proposed name that
    does not exist yet is created, empty, with mode [0o600]; when every
    proposal is taken the call raises [FileExistsError]. *)
Fixpoint mkstemp_try (prefix dir : string) (names : list string) : M string := λ s,
  match names with
  | [] => (inl FileExistsError, s)
  | n :: names' =>
      let p := os_path_join dir (prefix +:+ n) in
      match s !! p with
      | None => (inr p, <[p := File [] 384]> s)
      | Some _ => mkstemp_try prefix dir names' s
      end
  end.

Definition mkstemp (e : env) (prefix dir : string) : M string :=
  mkstemp_try prefix dir (tmp_names e).

(** ** Documents *)

(** The objects [plistlib.load] produces.  Reals and dates are kept as the
    bits the file holds; the program never computes with them. *)
Inductive value :=
  | VStr (s : string)
  | VInt (z : Z)
  | VReal (bits : Z)
  | VBool (b : bool)
  | VDate (seconds : Z)
  | VData (bs : list byte)
  | VList (l : list value)
  | VDict (m : gmap string value).

(** A reference to a dictionary nested in the document: the keys that lead
    to it from the root. *)
Abbreviation ref := (list string).

(** The object a reference designates in the store [root]. *)
Fixpoint deref (root : value) (r : ref) : option value :=
  match r with
  | [] => Some root
  | k :: r' =>
      match root with
      | VDict m => match m !! k with Some v => deref v r' | None => None end
      | _ => None
      end
  end.

(** [node[k] = v] for the dictionary [node] designated by [r]. *)
Fixpoint setitem (root : value) (r : ref) (k : string) (v : value) : value :=
  match r with
  | [] => match root with VDict m => VDict (<[k := v]> m) | _ => root end
  | k0 :: r' =>
      match root with
      | VDict m =>
          match m !! k0 with
          | Some c => VDict (<[k0 := setitem c r' k v]> m)
          | None => root
          end
      | _ => root
      end
  end.

(** [curr == value] for [curr = plist_data.get(key)] and a [str] value
    (written [value'], [value] being the type of objects):
    [None] and objects of the other types are unequal to any string. *)
Definition py_eq_str (curr : option value) (value' : string) : bool :=
  match curr with
  | Some (VStr s) => bool_decide (s = value')
  | _ => false
  end.

(** ** plistlib *)

Inductive plist_format := FMT_XML | FMT_BINARY.

(** [plistlib.load] on the bytes of a file ([None]: the bytes are no
    plist) and [plistlib.dump] ([None]: the object cannot be serialised in
    that format). *)
Class Plistlib := {
  plist_load : list byte → option value;
  plist_dump : value → plist_format → option (list byte)
}.

(** The signature of the binary format. *)
Definition magic : list byte := String.list_byte_of_string "bplist00".

(** [s.startswith(prefix)] on bytes. *)
Fixpoint startswith (s prefix : list byte) {struct prefix} : bool :=
  match prefix with
  | [] => true
  | b :: prefix' =>
      match s with
      | [] => false
      | c :: s' => Byte.eqb c b && startswith s' prefix'
      end
  end.

(** The classification [detect_plist_format] makes of a file's bytes. *)
Definition classify (bs : list byte) : plist_format :=
  if startswith (take 8 bs) magic then FMT_BINARY else FMT_XML.

(** ** The program *)

Section program.
Context `{Plistlib}.

Definition detect_plist_format (path : string) : M plist_format :=
  header ← read_bytes path (Some 8%nat);
  if startswith header magic then mret FMT_BINARY else mret FMT_XML.

Definition load_plist (path : string) : M value :=
  bs ← read_bytes path None;
  match plist_load bs with
  | Some data => mret data
  | None => raise InvalidFileException
  end.

(** [with open(tmp_path, 'wb') as f: plistlib.dump(data, f, fmt=fmt)] *)
Definition dump_to (e : env) (p : string) (data : value) (fmt : plist_format) : M unit := λ s,
  if write_fails e then (inl OSError, set_content p (partial_write e) s)
  else match plist_dump data fmt with
       | Some bs => (inr tt, set_content p bs s)
       | None => (inl TypeError, set_content p (partial_write e) s)
       end.

Definition atomic_write_plist (e : env) (path : string) (data : value) (fmt : plist_format) : M unit :=
  let dname := let d := os_path_dirname path in if bool_decide (d = EmptyString) then "." else d in
  tmp_path ← mkstemp e ".plist.tmp_" dname;
  try_finally
    (dump_to e tmp_path data fmt;;
     except_FileNotFoundError
       (st_mode ← os_stat e path;
        os_chmod e tmp_path st_mode);;
     os_replace e tmp_path path)
    (except_Exception
       (b ← os_path_exists tmp_path;
        if (b : bool) then os_remove e tmp_path else mret tt)).

Definition backup_file (e : env) (path : string) : M string :=
  let bak_path := path +:+ ".bak" in
  b ← os_path_exists bak_path;
  (if negb b then shutil_copy2 e path bak_path else mret tt);;
  mret bak_path.

(** [plist_data] is the dictionary [node] of the store [root]; the store
    after the call is returned with the flag. *)
Definition set_key_if_changed (root : value) (node : ref) (key value' : string) : exn + (value * bool) :=
  match deref root node with
  | Some (VDict m) =>
      let curr := m !! key in
      if py_eq_str curr value' then inr (root, false)
      else inr (setitem root node key (VStr value'), true)
  | _ => inl AttributeError
  end.

Definition not_a_dictionary (path_keys : list string) : string :=
  "Path '" +:+ String.concat "/" path_keys +:+ "' is not a dictionary; cannot write keys there".

(** The loop of [ensure_path_dict]: [node] is the reference held by the
    loop variable, [keys] what is left of [path_keys]. *)
Fixpoint ensure_path_loop (path_keys : list string) (root : value) (node : ref) (keys : list string)
    : exn + (value * ref) :=
  match keys with
  | [] => inr (root, node)
  | k :: keys' =>
      match deref root node with
      | Some (VDict m) =>
          let root1 :=
            if negb (bool_decide (is_Some (m !! k))) then setitem root node k (VDict ∅) else root in
          match deref root1 (node ++ [k]) with
          | Some (VDict _) => ensure_path_loop path_keys root1 (node ++ [k]) keys'
          | _ => inl (ValueError (not_a_dictionary path_keys))
          end
      | _ => inl TypeError
      end
  end.

Definition ensure_path_dict (root : value) (path_keys : list string) : exn + (value * ref) :=
  ensure_path_loop path_keys root [] path_keys.

Definition update_plist (e : env) (path product_version build_version : string)
    (make_backup : bool) (key_path : option (list string))
    (key_names : option (gmap string string)) : M bool :=
  fmt ← detect_plist_format path;
  data ← load_plist path;
  '(data, target) ← lift (ensure_path_dict data (default [] key_path));
  let prod_key := default "Product Version" (default ∅ key_names !! "product") in
  let build_key := default "Build Version" (default ∅ key_names !! "build") in
  '(data, changed1) ← lift (set_key_if_changed data target prod_key product_version);
  '(data, changed2) ← lift (set_key_if_changed data target build_key build_version);
  let changed := false || changed1 || changed2 in
  if negb changed then mret false
  else
    (if make_backup then backup_file e path;; mret tt else mret tt);;
    atomic_write_plist e path data fmt;;
    mret true.

(** [read_versions], the read path of [main]: [node] is only ever rebound,
    to an object of the document or to a fresh empty dictionary. *)
Definition read_step (node : value) (k : string) : value :=
  match node with
  | VDict m => default (VDict ∅) (m !! k)
  | _ => VDict ∅
  end.

Definition or_else {A} (x y : option A) : option A :=
  match x with Some _ => x | None => y end.

Definition read_versions (path : string) (key_path : option (list string)) (allow_alias : bool)
    : M (option value * option value) :=
  data ← load_plist path;
  let node := foldl read_step data (default [] key_path) in
  match node with
  | VDict m =>
      let pv := m !! "Product Version" in
      let bv := m !! "Build Version" in
      if allow_alias
      then mret (or_else pv (m !! "ProductVersion"), or_else bv (m !! "BuildVersion"))
      else mret (pv, bv)
  | _ => mret (None, None)
  end.

End program.

(** ** Names for the parts of the program

    The proofs follow the program part by part; these definitions name the
    parts.  Each is the text of the function it comes from, and the
    [_unfold] lemmas below hold by [reflexivity]. *)

Section parts.
Context `{Plistlib}.

(** [dname] of [atomic_write_plist]. *)
Definition tmp_dir (path : string) : string :=
  let d := os_path_dirname path in if bool_decide (d = EmptyString) then "." else d.

(** The body of the [try] statement of [atomic_write_plist]. *)
Definition try_body (e : env) (path : string) (data : value) (fmt : plist_format)
    (tmp_path : string) : M unit :=
  dump_to e tmp_path data fmt;;
  except_FileNotFoundError
    (st_mode ← os_stat e path;
     os_chmod e tmp_path st_mode);;
  os_replace e tmp_path path.

(** Its [finally] clause. *)
Definition finally_handler (e : env) (tmp_path : string) : M unit :=
  except_Exception
    (b ← os_path_exists tmp_path;
     if (b : bool) then os_remove e tmp_path else mret tt).

(** The two key names [update_plist] works with. *)
Definition prod_key (key_names : option (gmap string string)) : string :=
  default "Product Version" (default ∅ key_names !! "product").

Definition build_key (key_names : option (gmap string string)) : string :=
  default "Build Version" (default ∅ key_names !! "build").

(** What [update_plist] does to the loaded document: the store after the
    two [set_key_if_changed] and the flag [changed]. *)
Definition edit (data : value) (key_path : option (list string))
    (key_names : option (gmap string string)) (product_version build_version : string)
    : exn + (value * bool) :=
  match ensure_path_dict data (default [] key_path) with
  | inl err => inl err
  | inr (data1, target) =>
      match set_key_if_changed data1 target (prod_key key_names) product_version with
      | inl err => inl err
      | inr (data2, changed1) =>
          match set_key_if_changed data2 target (build_key key_names) build_version with
          | inl err => inl err
          | inr (data3, changed2) => inr (data3, false || changed1 || changed2)
          end
      end
  end.

(** What [update_plist] does after it found [changed] true. *)
Definition persist (e : env) (path : string) (make_backup : bool) (data : value)
    (fmt : plist_format) : M bool :=
  (if make_backup then backup_file e path;; mret tt else mret tt);;
  atomic_write_plist e path data fmt;;
  mret true.

(** The value stored under [k] in the dictionary at [key_path] of a
    document, [None] when there is none. *)
Definition leaf (data : value) (key_path : list string) (k : string) : option value :=
  match deref data key_path with
  | Some (VDict m) => m !! k
  | _ => None
  end.

Definition is_dict (v : value) : bool :=
  match v with VDict _ => true | _ => false end.

(** The state in which [update_plist] calls the atomic writer: the backup
    is new when one was asked for and none was there. *)
Definition backed_up (make_backup : bool) (path : string) (f : file) (s : fs) : fs :=
  if make_backup && negb (bool_decide (is_Some (s !! (path +:+ ".bak"))))
  then <[path +:+ ".bak" := f]> s else s.

End parts.

(** ** What is assumed of plistlib *)

(** [dump] writes the signature of the format it is asked for: the binary
    writer starts its output with [bplist00], the XML writer with the XML
    declaration. *)
Definition dump_keeps_format `{Plistlib} : Prop :=
  ∀ data fmt bs, plist_dump data fmt = Some bs → classify bs = fmt.

(** [load] reads back what [dump] wrote. *)
Definition load_after_dump `{Plistlib} : Prop :=
  ∀ data fmt bs, plist_dump data fmt = Some bs → plist_load bs = Some data.

(** ** A codec to run the program with

    A small stand-in for plistlib, for documents that are one dictionary
    of strings: after the header of the format, every entry is a byte [01]
    and its two strings, the list ends with a byte [00]; a string is
    written character by character, each after a byte [01], and ends with
    a byte [00]. *)
Module TestCodec.

Definition xml_header : list byte := String.list_byte_of_string "<?xml".

Definition header (fmt : plist_format) : list byte :=
  match fmt with FMT_BINARY => magic | FMT_XML => xml_header end.

Fixpoint enc_str (s : string) : list byte :=
  match s with
  | EmptyString => [x00]
  | String c s' => x01 :: byte_of_ascii c :: enc_str s'
  end.

Fixpoint dec_str (bs : list byte) : option (string * list byte) :=
  match bs with
  | [] => None
  | b :: r =>
      if Byte.eqb b x00 then Some (EmptyString, r)
      else match r with
           | [] => None
           | c :: r' =>
               match dec_str r' with
               | Some (s, rest) => Some (String (ascii_of_byte c) s, rest)
               | None => None
               end
           end
  end.

Fixpoint enc_entries (l : list (string * string)) : list byte :=
  match l with
  | [] => [x00]
  | (k, v) :: l' => x01 :: enc_str k ++ enc_str v ++ enc_entries l'
  end.

Fixpoint dec_entries (fuel : nat) (bs : list byte) : option (list (string * string)) :=
  match fuel with
  | O => None
  | S n =>
      match bs with
      | [] => None
      | b :: r =>
          if Byte.eqb b x00 then Some []
          else match dec_str r with
               | Some (k, r1) =>
                   match dec_str r1 with
                   | Some (v, r2) =>
                       match dec_entries n r2 with
                       | Some l => Some ((k, v) :: l)
                       | None => None
                       end
                   | None => None
                   end
               | None => None
               end
      end
  end.

Definition as_text (x : string * value) : option (string * string) :=
  match x.2 with
  | VStr a => Some (x.1, a)
  | _ => None
  end.

Definition of_text (x : string * string) : string * value := (x.1, VStr x.2).

Definition dump (data : value) (fmt : plist_format) : option (list byte) :=
  match data with
  | VDict m =>
      match mapM as_text (map_to_list m) with
      | Some l => Some (header fmt ++ enc_entries l)
      | None => None
      end
  | _ => None
  end.

Definition body (bs : list byte) : option (list byte) :=
  if startswith bs magic then Some (drop 8 bs)
  else if startswith bs xml_header then Some (drop 5 bs)
  else None.

Definition load (bs : list byte) : option value :=
  match body bs with
  | Some rest =>
      match dec_entries (length rest) rest with
      | Some l => Some (VDict (list_to_map (of_text <$> l)))
      | None => None
      end
  | None => None
  end.

Definition plistlib : Plistlib := {| plist_load := load; plist_dump := dump |}.

End TestCodec.

(** ** Files and environments to run the program on *)

Module Runs.

Local Existing Instance TestCodec.plistlib.

(** An [Info.plist] with the two versions of the specification's scenario,
    in the binary format. *)
Definition info_doc : value :=
  VDict (<["Product Version" := VStr "16.0"]> (<["Build Version" := VStr "20A123"]> ∅)).

Definition info_path : string := "Backup/Info.plist".

Definition info_file : file := File (default [] (plist_dump info_doc FMT_BINARY)) 420.

Definition disk : fs := <[info_path := info_file]> ∅.

(** The same document in the text format. *)
Definition text_file : file := File (default [] (plist_dump info_doc FMT_XML)) 420.

Definition text_disk : fs := <[info_path := text_file]> ∅.

(** A document whose product version is already the target. *)
Definition half_doc : value :=
  VDict (<["Product Version" := VStr "17.0"]> (<["Build Version" := VStr "20A123"]> ∅)).

Definition half_file : file := File (default [] (plist_dump half_doc FMT_BINARY)) 420.

Definition half_disk : fs := <[info_path := half_file]> ∅.

(** A [Manifest.plist] whose [Lockdown] entry is a string. *)
Definition manifest_path : string := "Backup/Manifest.plist".

Definition bad_manifest : value := VDict (<["Lockdown" := VStr "none"]> ∅).

Definition bad_manifest_file : file :=
  File (default [] (plist_dump bad_manifest FMT_XML)) 420.

Definition bad_disk : fs := <[manifest_path := bad_manifest_file]> ∅.





(** A file of three bytes. *)
Definition short_disk : fs := <["short.plist" := File [x62; x70; x6c] 420]> ∅.

(** An environment in which every system call succeeds, one in which the
    write of the temporary file fails, and one in which the removal of the
    temporary file fails as well. *)
Definition quiet : env := Env ["k3v8"; "x0p2"] [] false false false false false false.

Definition disk_full : env := Env ["k3v8"; "x0p2"] [x62; x70] true false false false false false.

Definition locked : env := Env ["k3v8"; "x0p2"] [x62; x70] true false false false true false.

Definition tmp_name : string := "Backup/.plist.tmp_k3v8".

End Runs.

(** ** More names, for the properties beyond the update itself *)


(** The environment [e] with the failure of [os.remove] set to [b]. *)
Definition with_remove_fails (b : bool) (e : env) : env :=
  Env (tmp_names e) (partial_write e) (write_fails e) (stat_fails e) (chmod_fails e)
      (replace_fails e) b (copy_fails e).

(** ** The command-line program

    [main] and [validate_bundle_path].  What [argparse] returns is the
    record [args]; the functions of Python and of [os.path] that [main]
    uses on text are the operations of the class [Builtins]; which paths
    are directories, and how the operating system behaves while each of the
    two files is updated, is in the record [host].  A run of [main] is a
    computation on a [world]: the disk, the lines still to be read from
    the standard input, and what has been written to the standard output
    (one entry for each [print] and for each prompt of [input]). *)

Record args := Args {
  bundle : string;
  version : option string;
  build : option string;
  backup : bool
}.

Class Builtins := {
  py_strip : string → string;            (* str.strip *)
  py_lower : string → string;            (* str.lower *)
  py_repr : option value → string;       (* the conversion !r of an f-string *)
  py_str : exn → string;                 (* str(e) for an exception e *)
  py_expanduser : string → string        (* os.path.expanduser *)
}.

Record host := Host {
  is_dir : string → bool;                (* os.path.isdir *)
  os_env : string → env                  (* the environment of the update of a path *)
}.

Record world := World {
  w_fs : fs;
  w_stdin : list string;
  w_stdout : list string
}.

(** How a run of [main] ends: it returned, [sys.exit] was called with a
    message, or an exception was not caught. *)
Inductive outcome :=
  | Returned (result : option Z)
  | SystemExit (msg : string)
  | Raised (err : exn).

Definition IO (A : Type) : Type := world → (outcome + A) * world.

Global Instance IO_ret : MRet IO := λ A x w, (inr x, w).

Global Instance IO_bind : MBind IO := λ A B f m w,
  match m w with
  | (inr x, w') => f x w'
  | (inl o, w') => (inl o, w')
  end.

Definition sys_exit {A} (msg : string) : IO A := λ w, (inl (SystemExit msg), w).

(** [return result] in the body of [main]. *)
Definition return_ {A} (result : option Z) : IO A := λ w, (inl (Returned result), w).

Definition print (line : string) : IO unit := λ w,
  (inr tt, World (w_fs w) (w_stdin w) (w_stdout w ++ [line])).

(** [input(prompt)]: [None] stands for the [EOFError] of an exhausted
    input, which [main] catches at each call. *)
Definition input (prompt : string) : IO (option string) := λ w,
  match w_stdin w with
  | [] => (inr None, World (w_fs w) [] (w_stdout w ++ [prompt]))
  | line :: rest => (inr (Some line), World (w_fs w) rest (w_stdout w ++ [prompt]))
  end.

(** A file-system computation outside any [try]: its exception ends the
    run. *)
Definition run {A} (m : M A) : IO A := λ w,
  match m (w_fs w) with
  | (inr x, s) => (inr x, World s (w_stdin w) (w_stdout w))
  | (inl err, s) => (inl (Raised err), World s (w_stdin w) (w_stdout w))
  end.

(** [try: x = m ... except Exception as e: handler e]. *)
Definition run_except {A} (m : M A) (handler : exn → IO A) : IO A := λ w,
  match m (w_fs w) with
  | (inr x, s) => (inr x, World s (w_stdin w) (w_stdout w))
  | (inl err, s) => handler err (World s (w_stdin w) (w_stdout w))
  end.

Definition newline : string := String "010"%char EmptyString.

Section command_line.
Context `{Plistlib} `{Builtins} (h : host).

Definition os_path_isfile (p : string) : IO bool := λ w,
  (inr (bool_decide (is_Some (w_fs w !! p))), w).

Definition validate_bundle_path (bundle_path : string) : IO unit :=
  is_file ← os_path_isfile bundle_path;
  if negb (is_dir h bundle_path || is_file)
  then sys_exit ("Error: Path does not exist: " +:+ bundle_path)
  else if negb (is_dir h bundle_path)
  then sys_exit ("Error: Path is not a directory-like bundle: " +:+ bundle_path)
  else mret tt.

(** [[p for p in paths if not os.path.isfile(p)]] *)
Fixpoint missing_files (paths : list string) : IO (list string) :=
  match paths with
  | [] => mret []
  | p :: paths' =>
      is_file ← os_path_isfile p;
      rest ← missing_files paths';
      mret (if (is_file : bool) then rest else p :: rest)
  end.

Definition info_names : option (gmap string string) :=
  Some (<["product" := "Product Version"]> (<["build" := "Build Version"]> ∅)).

Definition manifest_names : option (gmap string string) :=
  Some (<["product" := "ProductVersion"]> (<["build" := "BuildVersion"]> ∅)).

(** The body of the [for] loop of [main], for one of the two files;
    [updated_any] is threaded through. *)
Definition update_one (a : args) (version' build' : string) (updated_any : bool)
    (plist_path label : string) (key_path : option (list string))
    (key_names : option (gmap string string)) : IO bool :=
  run_except
    (update_plist (os_env h plist_path) plist_path version' build' (backup a)
       key_path key_names)
    (λ e, sys_exit ("Failed to update " +:+ label +:+ ": " +:+ py_str e))
  ≫= λ changed : bool,
  if changed
  then print ("Updated " +:+ label +:+ ": Product Version -> " +:+ version'
              +:+ ", Build Version -> " +:+ build');;
       mret true
  else print (label +:+ " already has target versions. No change.");;
       mret updated_any.

Definition main (a : args) : IO unit :=
  let bundle_path := py_expanduser (bundle a) in
  validate_bundle_path bundle_path;;
  let info_path := os_path_join bundle_path "Info.plist" in
  let manifest_path := os_path_join bundle_path "Manifest.plist" in
  missing ← missing_files [info_path; manifest_path];
  (match missing with
   | [] => mret tt
   | _ => sys_exit (String.concat newline
                      (["Missing required files:"] ++ missing ++
                       [EmptyString;
                        "Ensure the provided path is a backup bundle containing Info.plist and Manifest.plist."]))
   end);;
  '(info_pv, info_bv) ← run (read_versions info_path None true);
  '(man_pv, man_bv) ← run (read_versions manifest_path (Some ["Lockdown"]) true);
  print "Current values:";;
  print ("- Info.plist: Product Version=" +:+ py_repr info_pv
         +:+ ", Build Version=" +:+ py_repr info_bv);;
  print ("- Manifest.plist/Lockdown: ProductVersion=" +:+ py_repr man_pv
         +:+ ", BuildVersion=" +:+ py_repr man_bv);;
  answer ← input "Overwrite with new version? (Y/N): ";
  let confirm := match answer with Some l => py_lower (py_strip l) | None => "n" end in
  if negb (bool_decide (confirm ∈ ["y"; "yes"]))
  then print "Cancelled. No changes made.";; return_ (Some 0%Z)
  else
    version' ← (match version a with
                | Some v => if bool_decide (v = EmptyString) then
                              answer ← input "Enter Product Version (e.g., 17.0): ";
                              mret (match answer with Some l => py_strip l | None => EmptyString end)
                            else mret v
                | None =>
                    answer ← input "Enter Product Version (e.g., 17.0): ";
                    mret (match answer with Some l => py_strip l | None => EmptyString end)
                end);
    (if bool_decide (version' = EmptyString)
     then sys_exit "Error: No Product Version provided. Use --version or interactive prompt."
     else mret tt);;
    build' ← (match build a with
              | Some v => if bool_decide (v = EmptyString) then
                            answer ← input "Enter Build Version (e.g., 21A123): ";
                            mret (match answer with Some l => py_strip l | None => EmptyString end)
                          else mret v
              | None =>
                  answer ← input "Enter Build Version (e.g., 21A123): ";
                  mret (match answer with Some l => py_strip l | None => EmptyString end)
              end);
    (if bool_decide (build' = EmptyString)
     then sys_exit "Error: No Build Version provided. Use --build or interactive prompt."
     else mret tt);;
    updated_any ← update_one a version' build' false info_path "Info.plist" None info_names;
    updated_any ← update_one a version' build' updated_any manifest_path "Manifest.plist"
                    (Some ["Lockdown"]) manifest_names;
    if (updated_any : bool)
    then print "Done: Plists updated as requested."
    else print "No changes: Both plists already contained target versions.".

(** A whole run: falling off the end of [main] returns [None]. *)
Definition run_main (a : args) (w : world) : outcome * world :=
  match main a w with
  | (inl o, w') => (o, w')
  | (inr _, w') => (Returned None, w')
  end.

End command_line.

(** Names for the parts of [main], as for the update. *)
Section command_line_parts.
Context `{Plistlib} `{Builtins} (h : host).

Definition info_path_of (a : args) : string :=
  os_path_join (py_expanduser (bundle a)) "Info.plist".

Definition manifest_path_of (a : args) : string :=
  os_path_join (py_expanduser (bundle a)) "Manifest.plist".

(** The [for] loop of [main] and the report after it. *)
Definition update_phase (a : args) (version' build' : string) : IO unit :=
  updated_any ← update_one h a version' build' false (info_path_of a) "Info.plist" None
                  info_names;
  updated_any ← update_one h a version' build' updated_any (manifest_path_of a)
                  "Manifest.plist" (Some ["Lockdown"]) manifest_names;
  if (updated_any : bool)
  then print "Done: Plists updated as requested."
  else print "No changes: Both plists already contained target versions.".

(** A run that reaches the loop without a prompt for the versions: the
    bundle is a directory, the two files are there and load as [d_info] and
    [d_manifest], the answer to the question is yes, and the two versions
    are on the command line. *)
Definition ready (a : args) (w : world) (version' build' : string)
    (d_info d_manifest : value) : Prop :=
  is_dir h (py_expanduser (bundle a)) = true
  ∧ (∃ f, w_fs w !! info_path_of a = Some f ∧ plist_load (content f) = Some d_info)
  ∧ (∃ f, w_fs w !! manifest_path_of a = Some f ∧ plist_load (content f) = Some d_manifest)
  ∧ (∃ line, head (w_stdin w) = Some line ∧ py_lower (py_strip line) ∈ ["y"; "yes"])
  ∧ version a = Some version' ∧ version' ≠ EmptyString
  ∧ build a = Some build' ∧ build' ≠ EmptyString.

End command_line_parts.

(** ** Python's text functions, on ASCII, to run [main] with *)
Module TestPython.

Definition is_space (c : ascii) : bool :=
  let n := nat_of_ascii c in
  bool_decide (n = 32%nat) || (bool_decide (9 ≤ n)%nat && bool_decide (n ≤ 13)%nat).

Definition strip (s : string) : string :=
  String.string_of_list_ascii
    (rev (drop_while is_space (rev (drop_while is_space (String.list_ascii_of_string s))))).

Definition lower_ascii (c : ascii) : ascii :=
  let n := nat_of_ascii c in
  if bool_decide (65 ≤ n)%nat && bool_decide (n ≤ 90)%nat then ascii_of_nat (n + 32) else c.

Definition lower (s : string) : string :=
  String.string_of_list_ascii (map lower_ascii (String.list_ascii_of_string s)).

Definition repr (o : option value) : string :=
  match o with
  | None => "None"
  | Some (VStr s) => "'" +:+ s +:+ "'"
  | Some _ => "<object>"
  end.

Definition str (e : exn) : string :=
  match e with
  | ValueError msg => msg
  | FileNotFoundError => "[Errno 2] No such file or directory"
  | FileExistsError => "[Errno 17] File exists"
  | InvalidFileException => "Invalid file"
  | TypeError => "unsupported type"
  | AttributeError => "object has no attribute 'get'"
  | OSError => "[Errno 28] No space left on device"
  end.

Definition builtins : Builtins :=
  {| py_strip := strip; py_lower := lower; py_repr := repr; py_str := str;
     py_expanduser := λ p, p |}.

End TestPython.

(** ** A codec for nested documents

    A second stand-in for plistlib, for documents made of strings and of
    dictionaries nested up to a fixed depth: a string is a byte [01] and
    the string as in [TestCodec]; a dictionary is a byte [02], its entries,
    each a byte [01], the key and the value, and a byte [00]. *)
Module NestedCodec.
Import TestCodec.

Definition enc_item (enc : value → option (list byte)) (kv : string * value)
    : option (list byte) :=
  match enc kv.2 with
  | Some bs => Some (x01 :: enc_str kv.1 ++ bs)
  | None => None
  end.

Fixpoint enc (fuel : nat) (v : value) : option (list byte) :=
  match fuel with
  | O => None
  | S n =>
      match v with
      | VStr s => Some (x01 :: enc_str s)
      | VDict m =>
          match mapM (enc_item (enc n)) (map_to_list m) with
          | Some items => Some (x02 :: concat items ++ [x00])
          | None => None
          end
      | _ => None
      end
  end.

Fixpoint dec (fuel : nat) (bs : list byte) : option (value * list byte) :=
  match fuel with
  | O => None
  | S n =>
      match bs with
      | [] => None
      | b :: r =>
          if Byte.eqb b x01 then
            match dec_str r with
            | Some (s, r') => Some (VStr s, r')
            | None => None
            end
          else if Byte.eqb b x02 then
            match dec_items n r with
            | Some (l, r') => Some (VDict (list_to_map l), r')
            | None => None
            end
          else None
      end
  end
with dec_items (fuel : nat) (bs : list byte) : option (list (string * value) * list byte) :=
  match fuel with
  | O => None
  | S n =>
      match bs with
      | [] => None
      | b :: r =>
          if Byte.eqb b x00 then Some ([], r)
          else if Byte.eqb b x01 then
            match dec_str r with
            | Some (k, r1) =>
                match dec n r1 with
                | Some (v, r2) =>
                    match dec_items n r2 with
                    | Some (l, r3) => Some ((k, v) :: l, r3)
                    | None => None
                    end
                | None => None
                end
            | None => None
            end
          else None
      end
  end.

Definition depth : nat := 8.

Definition dump (data : value) (fmt : plist_format) : option (list byte) :=
  match enc depth data with
  | Some bs => Some (header fmt ++ bs)
  | None => None
  end.

Definition load (bs : list byte) : option value :=
  match body bs with
  | Some rest =>
      match dec (length rest) rest with
      | Some (v, _) => Some v
      | None => None
      end
  | None => None
  end.

Definition plistlib : Plistlib := {| plist_load := load; plist_dump := dump |}.

End NestedCodec.

(** ** Bundles to run [main] on *)
Module BundleRuns.

Local Existing Instance NestedCodec.plistlib.
Local Existing Instance TestPython.builtins.

(** The two plists of a bundle, before and after an update to 17.0 and
    21A123. *)
Definition info_doc : value :=
  VDict (<["Product Version" := VStr "16.0"]> (<["Build Version" := VStr "20A123"]> ∅)).

Definition manifest_doc : value :=
  VDict (<["Lockdown" :=
             VDict (<["ProductVersion" := VStr "16.0"]>
                      (<["BuildVersion" := VStr "20A123"]> ∅))]>
           (<["Version" := VStr "10.0"]> ∅)).

Definition new_info_doc : value :=
  VDict (<["Product Version" := VStr "17.0"]> (<["Build Version" := VStr "21A123"]> ∅)).

Definition new_manifest_doc : value :=
  VDict (<["Lockdown" :=
             VDict (<["ProductVersion" := VStr "17.0"]>
                      (<["BuildVersion" := VStr "21A123"]> ∅))]>
           (<["Version" := VStr "10.0"]> ∅)).

Definition plist_file (data : value) (fmt : plist_format) : file :=
  File (default [] (plist_dump data fmt)) 420.

Definition info_file : file := plist_file info_doc FMT_BINARY.

Definition manifest_file : file := plist_file manifest_doc FMT_XML.

Definition bundle_of (info manifest : file) : fs :=
  <["Backup/Info.plist" := info]> (<["Backup/Manifest.plist" := manifest]> ∅).

Definition bundle_disk : fs := bundle_of info_file manifest_file.

Definition new_disk : fs :=
  bundle_of (plist_file new_info_doc FMT_BINARY) (plist_file new_manifest_doc FMT_XML).

(** A bundle whose [Info.plist] is one byte that is no plist. *)
Definition garbled_file : file := File [x00] 420.

Definition garbled_disk : fs := bundle_of garbled_file manifest_file.

(** A plist whose root is a string. *)
Definition note_file : file := plist_file (VStr "note") FMT_XML.

Definition note_disk : fs := <["note.plist" := note_file]> ∅.

(** A host on which every system call succeeds, and one on which the write
    of the temporary file fails during the update of [path]. *)
Definition host_of (os_env : string → env) : host :=
  Host (λ p, bool_decide (p = "Backup")) os_env.

Definition laptop : host := host_of (λ _, Runs.quiet).

Definition full_at (path : string) : host :=
  host_of (λ p, if bool_decide (p = path) then Runs.disk_full else Runs.quiet).

(** [python update_backup_version.py Backup --version 17.0 --build 21A123 --backup] *)
Definition cli : args := Args "Backup" (Some "17.0") (Some "21A123") true.

(** The user answers yes, or no. *)
Definition yes (s : fs) : world := World s [" Yes "; "y"] [].

Definition no (s : fs) : world := World s ["n"] [].

End BundleRuns.

(** * Properties *)

(** ** Bytes and the signature *)

Lemma byte_eqb_refl (b : byte) : Byte.eqb b b = true.
Proof. by apply Byte.byte_dec_lb. Qed.

Lemma startswith_spec (s prefix : list byte) :
  startswith s prefix = true ↔ ∃ rest, s = prefix ++ rest.
Proof.
  revert s. induction prefix as [|b prefix IH]; intros s; simpl.
  - split; [intros _; by exists s | done].
  - destruct s as [|c s].
    + split; [done | intros [rest Hrest]; discriminate].
    + rewrite andb_true_iff, IH. split.
      * intros [Hcb [rest ->]]. apply Byte.byte_dec_bl in Hcb as ->. by exists rest.
      * intros [rest Hrest]. injection Hrest as -> ->. split; [apply byte_eqb_refl | by exists rest].
Qed.

Lemma magic_length : length magic = 8%nat.
Proof. reflexivity. Qed.

(** The first eight bytes start with the signature exactly when the file
    does. *)
Lemma startswith_header (bs : list byte) :
  startswith (take 8 bs) magic = true ↔ ∃ rest, bs = magic ++ rest.
Proof.
  rewrite startswith_spec. split.
  - intros [rest Hrest]. exists (drop 8 bs).
    assert (rest = []) as ->.
    { apply (f_equal length) in Hrest.
      rewrite length_take, length_app, magic_length in Hrest.
      destruct rest; [done | cbn [length] in Hrest; lia]. }
    rewrite app_nil_r in Hrest. rewrite <- Hrest. by rewrite take_drop.
  - intros [rest ->]. exists []. by rewrite app_nil_r.
Qed.

Lemma classify_binary (bs : list byte) :
  classify bs = FMT_BINARY ↔ ∃ rest, bs = magic ++ rest.
Proof.
  rewrite <- startswith_header. unfold classify.
  destruct (startswith (take 8 bs) magic); split; done.
Qed.

Lemma classify_short (bs : list byte) :
  (length bs < 8)%nat → classify bs = FMT_XML.
Proof.
  intros Hlen. destruct (classify bs) eqn:Hc; [done |].
  apply classify_binary in Hc as [rest ->].
  rewrite length_app, magic_length in Hlen. lia.
Qed.

Section detector.
Context `{Plistlib}.

Lemma detect_plist_format_eq (path : string) (s : fs) :
  detect_plist_format path s =
  match s !! path with
  | Some f => (inr (classify (content f)), s)
  | None => (inl FileNotFoundError, s)
  end.
Proof.
  unfold detect_plist_format, mbind, M_bind, read_bytes, classify.
  destruct (s !! path) as [f|]; [|done].
  by destruct (startswith (take 8 (content f)) magic).
Qed.

(** C7. For an existing file the detector answers Binary exactly when the
    file starts with the eight bytes [bplist00] and Text otherwise, and it
    leaves the disk as it is; for a path that does not exist it raises
    [FileNotFoundError]. *)
Theorem detect_plist_format_spec (path : string) (s : fs) :
  (∀ f, s !! path = Some f →
     ∃ fmt, detect_plist_format path s = (inr fmt, s)
       ∧ (fmt = FMT_BINARY ↔ ∃ rest, content f = magic ++ rest)
       ∧ (fmt = FMT_XML ↔ ¬ ∃ rest, content f = magic ++ rest))
  ∧ (s !! path = None → detect_plist_format path s = (inl FileNotFoundError, s))
  ∧ magic = String.list_byte_of_string "bplist00".
Proof.
  rewrite detect_plist_format_eq. split; [|split; [by intros -> | done]].
  intros f ->. exists (classify (content f)). split; [done |].
  rewrite <- classify_binary. split; [done |].
  destruct (classify (content f)); split; done.
Qed.

(** C10. A file shorter than eight bytes, the empty file included, is
    classified as Text. *)
Theorem detect_plist_format_short (path : string) (s : fs) (f : file) :
  s !! path = Some f →
  (length (content f) < 8)%nat →
  detect_plist_format path s = (inr FMT_XML, s).
Proof.
  intros Hf Hlen. rewrite detect_plist_format_eq, Hf.
  by rewrite classify_short.
Qed.

End detector.

(** ** The atomic writer *)

Lemma mkstemp_try_spec (prefix dir : string) (names : list string) (s : fs) r s0 :
  mkstemp_try prefix dir names s = (r, s0) →
  match r with
  | inr p => s !! p = None ∧ s0 = <[p := File [] 384]> s
  | inl err => err = FileExistsError ∧ s0 = s
  end.
Proof.
  induction names as [|n names IH]; simpl.
  - by intros [= <- <-].
  - destruct (s !! os_path_join dir (prefix +:+ n)) eqn:Hp; [done |].
    by intros [= <- <-].
Qed.

Section writer.
Context `{Plistlib}.

Lemma atomic_write_plist_unfold e path data fmt :
  atomic_write_plist e path data fmt =
  (tmp_path ← mkstemp e ".plist.tmp_" (tmp_dir path);
   try_finally (try_body e path data fmt tmp_path) (finally_handler e tmp_path)).
Proof. reflexivity. Qed.

(** The handler never raises; it removes the temporary file when there is
    one and the removal does not fail. *)
Lemma finally_handler_eq e tmp (s : fs) :
  finally_handler e tmp s = (inr tt, if remove_fails e then s else delete tmp s).
Proof.
  unfold finally_handler, except_Exception, mbind, M_bind, os_path_exists, os_remove.
  destruct (s !! tmp) as [f|] eqn:Htmp.
  - rewrite bool_decide_eq_true_2 by eauto. rewrite Htmp. by destruct (remove_fails e).
  - rewrite bool_decide_eq_false_2 by (by intros [? ?]).
    rewrite delete_id by done. by destruct (remove_fails e).
Qed.

Lemma dump_to_tmp e tmp data fmt (s : fs) f :
  dump_to e tmp data fmt (<[tmp := f]> s) =
  match (if write_fails e then None else plist_dump data fmt) with
  | Some bs => (inr tt, <[tmp := File bs (mode f)]> s)
  | None => (inl (if write_fails e then OSError else TypeError),
             <[tmp := File (partial_write e) (mode f)]> s)
  end.
Proof.
  unfold dump_to, set_content. rewrite lookup_insert_eq.
  destruct (write_fails e), (plist_dump data fmt); by rewrite insert_insert_eq.
Qed.

(** The body of the [try], started in the state [mkstemp] leaves: either
    only the temporary file differs from the initial state, or the body
    succeeded and the target holds the serialised document, with the mode
    of the file it replaces. *)
Lemma try_body_cases e path data fmt tmp (s : fs) r s1 :
  s !! tmp = None →
  try_body e path data fmt tmp (<[tmp := File [] 384]> s) = (r, s1) →
  (∃ f, s1 = <[tmp := f]> s ∧ (tmp ≠ path → ∃ err, r = inl err))
  ∨ (tmp ≠ path ∧ r = inr tt ∧ ∃ bs, plist_dump data fmt = Some bs
       ∧ s1 = <[path := File bs (from_option mode 384%N (s !! path))]> s).
Proof.
  intros Hfresh. unfold try_body, mbind, M_bind. rewrite dump_to_tmp.
  destruct (write_fails e) eqn:Hw; [intros [= <- <-]; left; eauto |].
  destruct (plist_dump data fmt) as [bs|] eqn:Hdump; [|intros [= <- <-]; left; eauto].
  unfold except_FileNotFoundError, os_stat, os_chmod, os_replace, mbind, M_bind. simpl.
  destruct (decide (tmp = path)) as [<-|Hne].
  - rewrite lookup_insert_eq.
    destruct (stat_fails e); [intros [= <- <-]; left; eexists; split; [done | done] |].
    rewrite lookup_insert_eq.
    destruct (chmod_fails e); [intros [= <- <-]; left; eexists; split; [done | done] |].
    rewrite lookup_insert_eq.
    destruct (replace_fails e); intros [= <- <-]; left; eexists; (split; [|done]).
    + by rewrite insert_insert_eq.
    + by rewrite delete_insert_eq, insert_delete_eq, !insert_insert_eq.
  - rewrite lookup_insert_ne by done.
    destruct (s !! path) as [f|] eqn:Hpath; simpl.
    + destruct (stat_fails e); [intros [= <- <-]; left; eauto |].
      rewrite lookup_insert_eq.
      destruct (chmod_fails e); [intros [= <- <-]; left; eauto |].
      rewrite lookup_insert_eq, insert_insert_eq.
      destruct (replace_fails e); intros [= <- <-]; [left; eauto |].
      right. repeat split; try done. exists bs. split; [done |].
      by rewrite delete_insert_eq, delete_id.
    + rewrite lookup_insert_eq.
      destruct (replace_fails e); intros [= <- <-]; [left; eauto |].
      right. repeat split; try done. exists bs. split; [done |].
      by rewrite delete_insert_eq, delete_id.
Qed.

(** All the outcomes of [atomic_write_plist]. *)
Lemma atomic_write_plist_cases e path data fmt (s : fs) r s' :
  atomic_write_plist e path data fmt s = (r, s') →
  (mkstemp e ".plist.tmp_" (tmp_dir path) s = (inl FileExistsError, s)
     ∧ r = inl FileExistsError ∧ s' = s)
  ∨ ∃ tmp, mkstemp e ".plist.tmp_" (tmp_dir path) s = (inr tmp, <[tmp := File [] 384]> s)
      ∧ s !! tmp = None
      ∧ ((∃ f, s' = (if remove_fails e then <[tmp := f]> s else s)
               ∧ (tmp ≠ path → ∃ err, r = inl err))
         ∨ (tmp ≠ path ∧ r = inr tt ∧ ∃ bs, plist_dump data fmt = Some bs
              ∧ s' = <[path := File bs (from_option mode 384%N (s !! path))]> s)).
Proof.
  rewrite atomic_write_plist_unfold. unfold mbind at 1, M_bind at 1.
  destruct (mkstemp _ _ _ s) as [[err|tmp] s0] eqn:Hmk.
  { destruct (mkstemp_try_spec _ _ _ _ _ _ Hmk) as [-> ->]. intros [= <- <-]. by left. }
  destruct (mkstemp_try_spec _ _ _ _ _ _ Hmk) as [Hfresh ->].
  unfold try_finally.
  destruct (try_body e path data fmt tmp _) as [r1 s1] eqn:Hbody.
  rewrite finally_handler_eq. intros [= <- <-].
  right. exists tmp. split; [done |]. split; [done |].
  apply try_body_cases in Hbody; [|done].
  destruct Hbody as [(f & -> & Hr)|(Hne & -> & bs & Hdump & ->)].
  - left. exists f. split; [|done].
    destruct (remove_fails e); [done |]. by rewrite delete_insert_eq, delete_id.
  - right. split; [done |]. split; [done |]. exists bs. split; [done |].
    destruct (remove_fails e); [done |]. by rewrite delete_id by by rewrite lookup_insert_ne.
Qed.

(** C3. Once the temporary file exists, a failure of the write leaves the
    target as it was, and the temporary file is removed: the disk is back
    in its initial state.  The removal is the [os.remove] of the [finally]
    clause, whose own failure the code swallows; the removal part is stated
    for a removal that does not fail.  After a successful replace nothing
    but the target differs from the initial state, so no temporary file
    remains. *)
Theorem atomic_write_plist_cleanup e path data fmt (s : fs) tmp s0 r s' :
  mkstemp e ".plist.tmp_" (tmp_dir path) s = (inr tmp, s0) →
  atomic_write_plist e path data fmt s = (r, s') →
  s !! tmp = None ∧ s0 !! tmp = Some (File [] 384) ∧
  match r with
  | inl _ =>
      (∀ f, s !! path = Some f → s' !! path = Some f)
      ∧ (remove_fails e = false → s' !! tmp = None ∧ s' = s)
  | inr _ =>
      (tmp ≠ path → s' !! tmp = None) ∧ (∀ p, p ≠ path → s' !! p = s !! p)
  end.
Proof.
  intros Hmk Hrun.
  apply atomic_write_plist_cases in Hrun
    as [(Hmk' & _)|(tmp' & Hmk' & Hfresh & Hcases)]; [congruence |].
  rewrite Hmk' in Hmk. injection Hmk as <- <-.
  split; [done |]. split; [by rewrite lookup_insert_eq |].
  destruct Hcases as [(f & -> & Hr)|(Hne & -> & bs & Hdump & ->)].
  - destruct r as [err|[]].
    + split.
      * intros f0 Hpath. destruct (remove_fails e); [|done].
        rewrite lookup_insert_ne; [done | congruence].
      * by intros ->.
    + split.
      * intros Hne. by destruct (Hr Hne).
      * intros p Hp. destruct (decide (tmp' = path)) as [->|Hne]; [|by destruct (Hr Hne)].
        destruct (remove_fails e); [|done]. by rewrite lookup_insert_ne.
  - split.
    + intros _. by rewrite lookup_insert_ne.
    + intros p Hp. by rewrite lookup_insert_ne.
Qed.

End writer.
(** ** The document store *)

Lemma deref_app (root : value) (r r' : ref) :
  deref root (r ++ r') = deref root r ≫= λ v, deref v r'.
Proof.
  revert root. induction r as [|k r IH]; intros root; simpl; [done |].
  destruct root; try done. destruct (m !! k); [apply IH | done].
Qed.

(** Only a dictionary can be entered. *)
Lemma deref_cons_dict (v w : value) (k : string) (r : ref) :
  deref v (k :: r) = Some w → is_dict v = true.
Proof. by destruct v. Qed.

Lemma deref_to_dict (v : value) (r : ref) (m : gmap string value) :
  deref v r = Some (VDict m) → is_dict v = true.
Proof. destruct r; simpl; [by intros [= ->] | by destruct v]. Qed.

Lemma is_dict_true (v : value) : is_dict v = true → ∃ m, v = VDict m.
Proof. destruct v; try done. eauto. Qed.

Lemma deref_setitem (root : value) (r : ref) (m : gmap string value) (k : string) (v : value) :
  deref root r = Some (VDict m) →
  deref (setitem root r k v) r = Some (VDict (<[k := v]> m)).
Proof.
  revert root. induction r as [|k0 r IH]; intros root; simpl.
  - by intros [= ->].
  - destruct root as [| | | | | | |m0]; try done.
    destruct (m0 !! k0) as [c|] eqn:Hc; [|done]. intros Hd.
    simpl. rewrite lookup_insert_eq. by apply IH.
Qed.

Lemma deref_snoc (root : value) (r : ref) (m : gmap string value) (k : string) :
  deref root r = Some (VDict m) → deref root (r ++ [k]) = m !! k.
Proof.
  intros Hr. rewrite deref_app, Hr. simpl. by destruct (m !! k).
Qed.

Section editor.
Context `{Plistlib}.

(** *** [set_key_if_changed] *)

Lemma set_key_if_changed_spec (root : value) (node : ref) (m : gmap string value)
    (key val : string) :
  deref root node = Some (VDict m) →
  ∃ root' changed,
    set_key_if_changed root node key val = inr (root', changed)
    ∧ deref root' node = Some (VDict (<[key := VStr val]> m))
    ∧ (changed = true ↔ m !! key ≠ Some (VStr val))
    ∧ (changed = false → root' = root).
Proof.
  intros Hnode. unfold set_key_if_changed. rewrite Hnode.
  destruct (py_eq_str (m !! key) val) eqn:Heq.
  - exists root, false. split; [done |].
    assert (m !! key = Some (VStr val)) as Hk.
    { unfold py_eq_str in Heq. destruct (m !! key) as [[]|]; try done.
      by apply bool_decide_eq_true in Heq as ->. }
    rewrite insert_id by done. repeat split; try done.
  - exists (setitem root node key (VStr val)), true. split; [done |].
    split; [by apply deref_setitem |]. split; [|done]. split; [|done].
    intros _ Hk. rewrite Hk in Heq. simpl in Heq. by rewrite bool_decide_eq_true_2 in Heq.
Qed.

Lemma set_key_if_changed_inr (root : value) (node : ref) (key val : string) root' changed :
  set_key_if_changed root node key val = inr (root', changed) →
  ∃ m, deref root node = Some (VDict m).
Proof.
  unfold set_key_if_changed. destruct (deref root node) as [[]|]; try done. eauto.
Qed.

(** *** [ensure_path_dict] *)

(** A path that leads to a dictionary is returned as it is, and the store
    is not touched. *)
Lemma ensure_path_loop_exists path_keys (root : value) (node : ref) (keys : list string) m :
  deref root (node ++ keys) = Some (VDict m) →
  ensure_path_loop path_keys root node keys = inr (root, node ++ keys).
Proof.
  revert node. induction keys as [|k keys IH]; intros node Hd; simpl.
  - by rewrite app_nil_r.
  - pose proof Hd as Hd'. rewrite deref_app in Hd'.
    destruct (deref root node) as [v0|] eqn:Hnode; [|done]. simpl in Hd'.
    destruct v0 as [| | | | | | |m0]; try done.
    destruct (m0 !! k) as [v1|] eqn:Hk; [|done].
    rewrite bool_decide_eq_true_2 by eauto. simpl.
    rewrite (deref_snoc _ _ _ _ Hnode), Hk.
    destruct (is_dict_true v1 (deref_to_dict _ _ _ Hd')) as [m1 ->].
    rewrite (IH (node ++ [k])); by rewrite <- (assoc_L (++)).
Qed.

(** What a successful run returns: the reference is the whole path, and
    the dictionary it designates is the one the document had there, or an
    empty one where the document had nothing. *)
Lemma ensure_path_loop_inr path_keys (root : value) (node : ref) (keys : list string)
    root' target m :
  ensure_path_loop path_keys root node keys = inr (root', target) →
  deref root' target = Some (VDict m) →
  target = node ++ keys
  ∧ (deref root (node ++ keys) = Some (VDict m) ∧ root' = root
     ∨ deref root (node ++ keys) = None ∧ m = ∅).
Proof.
  revert root node. induction keys as [|k keys IH]; intros root node; simpl.
  - intros [= <- <-] Hd. rewrite app_nil_r. split; [done |]. by left.
  - assert ((node ++ [k]) ++ keys = node ++ k :: keys) as Happ
      by (by rewrite <- (assoc_L (++))).
    destruct (deref root node) as [v0|] eqn:Hnode; [|done].
    destruct v0 as [| | | | | | |m0]; try done.
    destruct (m0 !! k) as [v1|] eqn:Hk.
    + rewrite bool_decide_eq_true_2 by eauto. simpl.
      destruct (deref root (node ++ [k])) as [[]|] eqn:Hnk; try done.
      intros Hrun Hd. destruct (IH _ _ Hrun Hd) as [-> Hcase].
      by rewrite Happ in Hcase.
    + rewrite bool_decide_eq_false_2 by (by intros [? ?]). simpl.
      pose proof (deref_snoc _ _ _ k (deref_setitem _ _ _ k (VDict ∅) Hnode)) as Hnew.
      rewrite lookup_insert_eq in Hnew. rewrite Hnew.
      intros Hrun Hd. destruct (IH _ _ Hrun Hd) as [-> Hcase].
      split; [done |]. right. split.
      { rewrite deref_app, Hnode. simpl. by rewrite Hk. }
      destruct Hcase as [[Hd' _]|[_ ->]]; [|done].
      rewrite deref_app, Hnew in Hd'. simpl in Hd'.
      destruct keys; simpl in Hd'; [by injection Hd' as <- | by rewrite lookup_empty in Hd'].
Qed.

(** A segment that exists and is no dictionary makes the walk fail. *)
Lemma ensure_path_loop_invalid path_keys (root : value) (node pre : ref) (k : string)
    (rest : list string) m v :
  deref root (node ++ pre) = Some (VDict m) →
  m !! k = Some v →
  is_dict v = false →
  ensure_path_loop path_keys root node (pre ++ k :: rest)
  = inl (ValueError (not_a_dictionary path_keys)).
Proof.
  intros Hd Hk Hv. revert node Hd. induction pre as [|k0 pre IH]; intros node Hd; simpl.
  - rewrite app_nil_r in Hd. rewrite Hd.
    rewrite bool_decide_eq_true_2 by eauto. simpl.
    rewrite (deref_snoc _ _ _ _ Hd), Hk. by destruct v.
  - pose proof Hd as Hd'. rewrite deref_app in Hd'.
    destruct (deref root node) as [v0|] eqn:Hnode; [|done]. simpl in Hd'.
    destruct v0 as [| | | | | | |m0]; try done.
    destruct (m0 !! k0) as [v1|] eqn:Hk0; [|done].
    rewrite bool_decide_eq_true_2 by eauto. simpl.
    rewrite (deref_snoc _ _ _ _ Hnode), Hk0.
    destruct (is_dict_true v1 (deref_to_dict _ _ _ Hd')) as [m1 ->].
    apply IH. by rewrite <- (assoc_L (++)).
Qed.
End editor.

Lemma py_eq_str_true (curr : option value) (val : string) :
  py_eq_str curr val = true ↔ curr = Some (VStr val).
Proof.
  unfold py_eq_str. destruct curr as [[]|]; try done.
  rewrite bool_decide_eq_true. split; congruence.
Qed.

(** ** The editor: what [update_plist] does to the document *)

Section edit.
Context `{Plistlib}.

(** A successful [edit] resolved the key path to a dictionary [m], the one
    the document had there or an empty one where it had nothing, and left
    there [m] with the two targets inserted. *)
Lemma edit_inr data key_path key_names product_version build_version data' changed :
  edit data key_path key_names product_version build_version = inr (data', changed) →
  let kp := default [] key_path in
  let pk := prod_key key_names in
  let bk := build_key key_names in
  ∃ data1 m,
    ensure_path_dict data kp = inr (data1, kp)
    ∧ deref data1 kp = Some (VDict m)
    ∧ (∀ k, m !! k = leaf data kp k)
    ∧ deref data' kp
      = Some (VDict (<[bk := VStr build_version]> (<[pk := VStr product_version]> m)))
    ∧ (changed = true ↔
         m !! pk ≠ Some (VStr product_version)
         ∨ <[pk := VStr product_version]> m !! bk ≠ Some (VStr build_version)).
Proof.
  intros Hedit kp pk bk. revert Hedit. unfold edit. fold kp pk bk.
  destruct (ensure_path_dict data kp) as [err|[data1 target]] eqn:Hens; [done |].
  destruct (set_key_if_changed data1 target pk _) as [err|[data2 c1]] eqn:Hset1; [done |].
  destruct (set_key_if_changed_inr _ _ _ _ _ _ Hset1) as [m Hm].
  destruct (ensure_path_loop_inr _ _ _ _ _ _ _ Hens Hm) as [-> Hinit]. simpl in *.
  destruct (set_key_if_changed_spec data1 kp m pk product_version Hm)
    as (data2' & c1' & Hset1' & Hm1 & Hc1 & _).
  rewrite Hset1 in Hset1'. injection Hset1' as <- <-.
  destruct (set_key_if_changed_spec data2 kp _ bk build_version Hm1)
    as (data3 & c2 & -> & Hm2 & Hc2 & _).
  intros [= <- <-]. exists data1, m. repeat split; try done.
  - intros k. unfold leaf. destruct Hinit as [[Hd ->]|[Hd ->]]; by rewrite Hd.
  - intros Hc. destruct c1; [left; by apply Hc1 | right; apply Hc2; exact Hc].
  - intros [Hd|Hd].
    + apply Hc1 in Hd. by rewrite Hd.
    + apply Hc2 in Hd. rewrite Hd. by destruct c1.
Qed.



(** [update_plist], part by part. *)
Lemma update_plist_unfold e path product_version build_version make_backup key_path
    key_names (s : fs) :
  update_plist e path product_version build_version make_backup key_path key_names s =
  match s !! path with
  | None => (inl FileNotFoundError, s)
  | Some f =>
      match plist_load (content f) with
      | None => (inl InvalidFileException, s)
      | Some data =>
          match edit data key_path key_names product_version build_version with
          | inl err => (inl err, s)
          | inr (data', changed) =>
              if changed then persist e path make_backup data' (classify (content f)) s
              else (inr false, s)
          end
      end
  end.
Proof.
  unfold update_plist. unfold mbind at 1, M_bind at 1.
  rewrite detect_plist_format_eq.
  destruct (s !! path) as [f|] eqn:Hf; [|done].
  unfold mbind at 1, M_bind at 1, load_plist. unfold mbind at 1, M_bind at 1, read_bytes.
  rewrite Hf. destruct (plist_load (content f)) as [data|]; [|done].
  unfold mret at 1, M_ret at 1. unfold edit, lift, prod_key, build_key.
  unfold mbind at 1, M_bind at 1.
  destruct (ensure_path_dict data _) as [err|[data1 target]]; [done |].
  unfold mbind at 1, M_bind at 1.
  destruct (set_key_if_changed data1 target _ _) as [err|[data2 c1]]; [done |].
  unfold mbind at 1, M_bind at 1.
  destruct (set_key_if_changed data2 target _ _) as [err|[data3 c2]]; [done |].
  by destruct (false || c1 || c2).
Qed.

End edit.

(** ** Backup and persistence *)

Lemma append_ne (s t : string) : t ≠ EmptyString → s ≠ s +:+ t.
Proof.
  intros Ht. induction s as [|c s IH]; simpl.
  - by destruct t.
  - intros [= Hs]. by apply IH.
Qed.

Lemma bak_ne (path : string) : path +:+ ".bak" ≠ path.
Proof. intros Heq. by apply (append_ne path ".bak"). Qed.

Section persistence.
Context `{Plistlib}.

Lemma backup_file_eq e path (s : fs) :
  backup_file e path s =
  match s !! (path +:+ ".bak"), s !! path with
  | Some _, _ => (inr (path +:+ ".bak"), s)
  | None, None => (inl FileNotFoundError, s)
  | None, Some f =>
      if copy_fails e then (inl OSError, s)
      else (inr (path +:+ ".bak"), <[path +:+ ".bak" := f]> s)
  end.
Proof.
  unfold backup_file, mbind, M_bind, os_path_exists, shutil_copy2. simpl.
  destruct (s !! (path +:+ ".bak")) as [b|] eqn:Hbak.
  - by rewrite bool_decide_eq_true_2 by eauto.
  - rewrite bool_decide_eq_false_2 by (by intros [? ?]). simpl.
    destruct (s !! path); [|done]. by destruct (copy_fails e).
Qed.

Lemma backed_up_path mb path f (s : fs) :
  s !! path = Some f → backed_up mb path f s !! path = Some f.
Proof.
  intros Hf. unfold backed_up.
  destruct (mb && _); [|done]. by rewrite lookup_insert_ne by apply bak_ne.
Qed.

Lemma persist_cases e path mb data fmt (s : fs) f r s' :
  s !! path = Some f →
  persist e path mb data fmt s = (r, s') →
  (mb = true ∧ s !! (path +:+ ".bak") = None ∧ copy_fails e = true
     ∧ r = inl OSError ∧ s' = s)
  ∨ ∃ r0, atomic_write_plist e path data fmt (backed_up mb path f s) = (r0, s')
      ∧ r = match r0 with inl err => inl err | inr _ => inr true end.
Proof.
  intros Hf. unfold persist, backed_up. unfold mbind at 1, M_bind at 1.
  destruct mb; simpl.
  - unfold mbind at 1, M_bind at 1. rewrite backup_file_eq, Hf.
    destruct (s !! (path +:+ ".bak")) as [b|] eqn:Hbak.
    + rewrite bool_decide_eq_true_2 by eauto. simpl.
      unfold mbind, M_bind. intros Hrun. right.
      destruct (atomic_write_plist e path data fmt s) as [[err|[]] s2];
        injection Hrun as <- <-; eauto.
    + rewrite bool_decide_eq_false_2 by (by intros [? ?]). simpl.
      destruct (copy_fails e); [intros [= <- <-]; by left |]. simpl.
      unfold mbind, M_bind. intros Hrun. right.
      destruct (atomic_write_plist e path data fmt _) as [[err|[]] s2];
        injection Hrun as <- <-; eauto.
  - unfold mbind, M_bind. intros Hrun. right.
    destruct (atomic_write_plist e path data fmt s) as [[err|[]] s2];
      injection Hrun as <- <-; eauto.
Qed.

(** The atomic writer keeps every file other than the target. *)
Lemma atomic_write_plist_keeps e path data fmt (s : fs) r s' p x :
  atomic_write_plist e path data fmt s = (r, s') →
  p ≠ path → s !! p = Some x → s' !! p = Some x.
Proof.
  intros Hrun Hp Hx.
  apply atomic_write_plist_cases in Hrun
    as [(_ & _ & ->)|(tmp & _ & Hfresh & [(f & -> & _)|(_ & _ & bs & _ & ->)])]; [done | |].
  - destruct (remove_fails e); [|done]. rewrite lookup_insert_ne; [done | congruence].
  - by rewrite lookup_insert_ne.
Qed.

(** A successful write over an existing target stores the serialised
    document under the target's name, with the mode the target had. *)
Lemma atomic_write_plist_inr e path data fmt (s : fs) f u s' :
  s !! path = Some f →
  atomic_write_plist e path data fmt s = (inr u, s') →
  ∃ bs, plist_dump data fmt = Some bs ∧ s' = <[path := File bs (mode f)]> s.
Proof.
  intros Hf Hrun.
  apply atomic_write_plist_cases in Hrun
    as [(_ & ? & _)|(tmp & _ & Hfresh & [(f' & _ & Hr)|(_ & _ & bs & Hdump & ->)])]; [done | |].
  - destruct Hr as [err ?]; [congruence | done].
  - exists bs. by rewrite Hf.
Qed.

Lemma persist_inr e path mb data fmt (s : fs) f c s' :
  s !! path = Some f →
  persist e path mb data fmt s = (inr c, s') →
  c = true
  ∧ atomic_write_plist e path data fmt (backed_up mb path f s) = (inr tt, s')
  ∧ ∃ bs, plist_dump data fmt = Some bs
      ∧ s' = <[path := File bs (mode f)]> (backed_up mb path f s).
Proof.
  intros Hf Hrun.
  destruct (persist_cases _ _ _ _ _ _ _ _ _ Hf Hrun) as [(_ & _ & _ & ? & _)|(r0 & Hw & Hr)];
    [done |].
  destruct r0 as [err|[]]; [done |]. injection Hr as ->. split; [done |]. split; [done |].
  by apply (atomic_write_plist_inr _ _ _ _ _ _ _ _ (backed_up_path mb _ _ _ Hf) Hw).
Qed.

End persistence.

(** ** The update operation *)

Section update.
Context `{Plistlib}.

(** A run of [update_plist] that returns: the flag is that of [edit] on the
    loaded document; a run that found nothing to change leaves the disk as
    it is, a run that changed something has written. *)
Lemma update_plist_inr e path product_version build_version make_backup key_path
    key_names (s : fs) c s' :
  update_plist e path product_version build_version make_backup key_path key_names s
  = (inr c, s') →
  ∃ f data data',
    s !! path = Some f
    ∧ plist_load (content f) = Some data
    ∧ edit data key_path key_names product_version build_version = inr (data', c)
    ∧ if c
      then atomic_write_plist e path data' (classify (content f))
             (backed_up make_backup path f s) = (inr tt, s')
           ∧ ∃ bs, plist_dump data' (classify (content f)) = Some bs
               ∧ s' = <[path := File bs (mode f)]> (backed_up make_backup path f s)
      else s' = s.
Proof.
  rewrite update_plist_unfold.
  destruct (s !! path) as [f|] eqn:Hf; [|done].
  destruct (plist_load (content f)) as [data|] eqn:Hload; [|done].
  destruct (edit data _ _ _ _) as [err|[data' changed]] eqn:Hedit; [done |].
  destruct changed.
  - intros Hrun. destruct (persist_inr _ _ _ _ _ _ _ _ _ Hf Hrun) as (-> & Hw & Hbs).
    by exists f, data, data'.
  - intros [= <- <-]. by exists f, data, data'.
Qed.

(** C2. The detector classifies the file [update_plist] leaves behind as
    it classified the file it found: a document loaded as Binary is written
    back as Binary, one loaded as Text as Text.  ([plistlib.dump] is
    assumed to write the signature of the format it is given.) *)
Theorem update_plist_keeps_format e path product_version build_version make_backup
    key_path key_names (s : fs) fmt c s' :
  dump_keeps_format →
  detect_plist_format path s = (inr fmt, s) →
  update_plist e path product_version build_version make_backup key_path key_names s
  = (inr c, s') →
  detect_plist_format path s' = (inr fmt, s')
  ∧ (c = true → ∃ data bs, plist_dump data fmt = Some bs
                  ∧ content <$> s' !! path = Some bs).
Proof.
  intros Hlaw Hdet Hrun.
  destruct (update_plist_inr _ _ _ _ _ _ _ _ _ _ Hrun) as (f & data & data' & Hf & _ & _ & Hc).
  rewrite detect_plist_format_eq, Hf in Hdet. injection Hdet as <-.
  destruct c; [|by subst; rewrite detect_plist_format_eq, Hf].
  destruct Hc as (_ & bs & Hdump & ->).
  rewrite detect_plist_format_eq, lookup_insert_eq. simpl.
  rewrite (Hlaw _ _ _ Hdump). split; [done |]. intros _. by exists data', bs.
Qed.

(** C4. When a segment of the key path exists in the document and is not a
    dictionary, [update_plist] raises [ValueError] and the disk is as it
    was: nothing is written and no backup is made. *)
Theorem update_plist_invalid_structure e path product_version build_version make_backup
    key_path key_names (s : fs) f data pre k rest m v :
  s !! path = Some f →
  plist_load (content f) = Some data →
  default [] key_path = pre ++ k :: rest →
  deref data pre = Some (VDict m) →
  m !! k = Some v →
  is_dict v = false →
  update_plist e path product_version build_version make_backup key_path key_names s
  = (inl (ValueError (not_a_dictionary (default [] key_path))), s).
Proof.
  intros Hf Hload Hpath Hd Hk Hv.
  rewrite update_plist_unfold, Hf, Hload. unfold edit, ensure_path_dict.
  rewrite Hpath at 2.
  by rewrite (ensure_path_loop_invalid _ data [] pre k rest m v Hd Hk Hv).
Qed.


(** C6, as the code has it.  [update_plist] leaves the disk untouched when
    it returns false.  When it returns true it has itself made the backup,
    if one was asked for and none existed, and run the atomic writer on
    the edited document in the detected format: the target then holds the
    serialised document.  Nothing is left for the caller to write. *)
Theorem update_plist_writes_itself e path product_version build_version make_backup
    key_path key_names (s : fs) c s' :
  update_plist e path product_version build_version make_backup key_path key_names s
  = (inr c, s') →
  (c = false → s' = s)
  ∧ (c = true →
     ∃ f data data' bs,
       s !! path = Some f
       ∧ plist_load (content f) = Some data
       ∧ edit data key_path key_names product_version build_version = inr (data', true)
       ∧ atomic_write_plist e path data' (classify (content f))
           (backed_up make_backup path f s) = (inr tt, s')
       ∧ plist_dump data' (classify (content f)) = Some bs
       ∧ s' !! path = Some (File bs (mode f))).
Proof.
  intros Hrun.
  destruct (update_plist_inr _ _ _ _ _ _ _ _ _ _ Hrun)
    as (f & data & data' & Hf & Hload & Hedit & Hc).
  split; intros ->; [done |].
  destruct Hc as (Hw & bs & Hdump & ->).
  exists f, data, data', bs. repeat split; try done. by rewrite lookup_insert_eq.
Qed.

(** C8. With backups enabled, a backup that exists before the update is
    the same after it, whatever the outcome of the update.  When there is
    none and the edit changes the document, the file at the path is copied
    to the backup, contents and mode, and the atomic writer runs in the
    state that has the backup (so the copy is made before the write, and
    stays when the write fails); in particular, after an update that
    returns true the backup is the file that was at the path. *)
Theorem update_plist_backup e path product_version build_version key_path key_names
    (s : fs) r s' :
  update_plist e path product_version build_version true key_path key_names s = (r, s') →
  (∀ b, s !! (path +:+ ".bak") = Some b → s' !! (path +:+ ".bak") = Some b)
  ∧ (s !! (path +:+ ".bak") = None →
     (∀ f data data',
        s !! path = Some f →
        plist_load (content f) = Some data →
        edit data key_path key_names product_version build_version = inr (data', true) →
        copy_fails e = false →
        s' !! (path +:+ ".bak") = Some f
        ∧ ∃ r0, atomic_write_plist e path data' (classify (content f))
                  (<[path +:+ ".bak" := f]> s) = (r0, s'))
     ∧ (r = inr true → is_Some (s !! path) ∧ s' !! (path +:+ ".bak") = s !! path)).
Proof.
  intros Hrun. split; [|intros Hnone; split].
  - intros b Hb. revert Hrun. rewrite update_plist_unfold.
    destruct (s !! path) as [f|] eqn:Hf; [|by intros [= _ <-]].
    destruct (plist_load (content f)) as [data|]; [|by intros [= _ <-]].
    destruct (edit data _ _ _ _) as [err|[data' changed]]; [by intros [= _ <-] |].
    destruct changed; [|by intros [= _ <-]].
    intros Hrun.
    destruct (persist_cases _ _ _ _ _ _ _ _ _ Hf Hrun)
      as [(_ & _ & _ & _ & ->)|(r0 & Hw & _)]; [done |].
    apply (atomic_write_plist_keeps _ _ _ _ _ _ _ _ _ Hw (bak_ne path)).
    unfold backed_up. rewrite bool_decide_eq_true_2 by eauto. by simpl.
  - intros f data data' Hf Hload Hedit Hcopy. revert Hrun.
    rewrite update_plist_unfold, Hf, Hload, Hedit. intros Hrun.
    destruct (persist_cases _ _ _ _ _ _ _ _ _ Hf Hrun)
      as [(_ & _ & ? & _)|(r0 & Hw & _)]; [congruence |].
    unfold backed_up in Hw.
    rewrite bool_decide_eq_false_2 in Hw by (rewrite Hnone; by intros [? ?]).
    simpl in Hw. split; [|by exists r0].
    apply (atomic_write_plist_keeps _ _ _ _ _ _ _ _ _ Hw (bak_ne path)).
    by rewrite lookup_insert_eq.
  - intros ->.
    destruct (update_plist_inr _ _ _ _ _ _ _ _ _ _ Hrun)
      as (f & data & data' & Hf & _ & _ & _ & bs & _ & ->).
    rewrite Hf. split; [eauto |].
    rewrite lookup_insert_ne by (apply not_eq_sym, bak_ne).
    unfold backed_up.
    rewrite bool_decide_eq_false_2 by (rewrite Hnone; by intros [? ?]). simpl.
    by rewrite lookup_insert_eq.
Qed.


End update.

(** ** The read path *)

Lemma deref_empty (r : ref) : default (VDict ∅) (deref (VDict ∅) r) = VDict ∅.
Proof. destruct r; simpl; [done | by rewrite lookup_empty]. Qed.

(** The walk of [read_versions] ends on the object the key path designates,
    and on an empty dictionary, which belongs to no document, when the path
    designates nothing. *)
Lemma read_walk (data : value) (key_path : list string) :
  foldl read_step data key_path = default (VDict ∅) (deref data key_path).
Proof.
  revert data. induction key_path as [|k key_path IH]; intros data; simpl; [done |].
  rewrite IH. destruct data as [| | | | | | |m]; simpl; try apply deref_empty.
  destruct (m !! k); simpl; [done | apply deref_empty].
Qed.

Lemma or_else_None {A} (x : option A) : or_else x None = x.
Proof. by destruct x. Qed.

Section reader.
Context `{Plistlib}.

(** C9. On a file that loads, [read_versions] raises nothing, leaves the
    disk as it is and returns, for each of the two leaves, the value the
    loaded document has under the key path ([None] when the leaf, or any
    mapping on the way to it, is missing); with [allow_alias] the name
    without a space stands in for a missing name with a space.  The result
    is read off the document as it was loaded: the walk assigns nothing, so
    no intermediate mapping is created. *)
Theorem read_versions_spec (path : string) (key_path : option (list string))
    (allow_alias : bool) (s : fs) (f : file) (data : value) :
  s !! path = Some f →
  plist_load (content f) = Some data →
  let kp := default [] key_path in
  read_versions path key_path allow_alias s
  = (inr (or_else (leaf data kp "Product Version")
            (if allow_alias then leaf data kp "ProductVersion" else None),
          or_else (leaf data kp "Build Version")
            (if allow_alias then leaf data kp "BuildVersion" else None)), s)
  ∧ (deref data kp = None →
     read_versions path key_path allow_alias s = (inr (None, None), s)).
Proof.
  intros Hf Hload kp.
  assert (read_versions path key_path allow_alias s
          = (inr (or_else (leaf data kp "Product Version")
                    (if allow_alias then leaf data kp "ProductVersion" else None),
                  or_else (leaf data kp "Build Version")
                    (if allow_alias then leaf data kp "BuildVersion" else None)), s)) as Hread.
  { unfold read_versions, load_plist, read_bytes, mbind, M_bind. cbn beta.
    rewrite Hf, Hload. unfold mret, M_ret. fold kp. rewrite read_walk. unfold leaf.
    destruct (deref data kp) as [[| | | | | | |m]|]; simpl;
      destruct allow_alias; by rewrite ?or_else_None, ?lookup_empty. }
  split; [done |]. intros Hnone. rewrite Hread. unfold leaf. rewrite Hnone.
  by destruct allow_alias.
Qed.

End reader.

(** ** The test codec is a codec *)

Module TestCodecLaws.
Import TestCodec.

Lemma dec_enc_str (s : string) (rest : list byte) :
  dec_str (enc_str s ++ rest) = Some (s, rest).
Proof.
  induction s as [|c s IH]; simpl; [done |].
  by rewrite IH, ascii_of_byte_of_ascii.
Qed.

Lemma enc_entries_length (l : list (string * string)) :
  (length l < length (enc_entries l))%nat.
Proof.
  induction l as [|[k v] l IH]; simpl; [lia |].
  rewrite !length_app. lia.
Qed.

Lemma dec_enc_entries (l : list (string * string)) (fuel : nat) :
  (length l < fuel)%nat → dec_entries fuel (enc_entries l) = Some l.
Proof.
  revert fuel. induction l as [|[k v] l IH]; intros [|fuel] Hfuel; simpl in *; try lia.
  - done.
  - rewrite dec_enc_str, dec_enc_str, IH by lia. done.
Qed.

Lemma as_text_of_text (l : list (string * value)) (l' : list (string * string)) :
  mapM as_text l = Some l' → of_text <$> l' = l.
Proof.
  rewrite mapM_Some. induction 1 as [|[k v] [k' a] l l' Hx _ IH]; [done |].
  rewrite fmap_cons, IH. unfold as_text in Hx. simpl in Hx.
  destruct v; try done. by injection Hx as -> ->.
Qed.

Lemma load_body_binary (rest : list byte) : body (magic ++ rest) = Some rest.
Proof. reflexivity. Qed.

Lemma load_body_xml (rest : list byte) : body (xml_header ++ rest) = Some rest.
Proof. reflexivity. Qed.

Lemma test_load_after_dump : @load_after_dump plistlib.
Proof.
  intros data fmt bs. simpl. unfold dump, load.
  destruct data as [| | | | | | |m]; try done.
  destruct (mapM as_text (map_to_list m)) as [l|] eqn:Hl; [|done].
  intros [= <-].
  assert (body (header fmt ++ enc_entries l) = Some (enc_entries l)) as ->.
  { destruct fmt; [apply load_body_xml | apply load_body_binary]. }
  rewrite dec_enc_entries by apply enc_entries_length.
  by rewrite (as_text_of_text _ _ Hl), list_to_map_to_list.
Qed.

Lemma test_dump_keeps_format : @dump_keeps_format plistlib.
Proof.
  intros data fmt bs. simpl. unfold dump.
  destruct data as [| | | | | | |m]; try done.
  destruct (mapM as_text (map_to_list m)) as [l|]; [|done].
  intros [= <-]. by destruct fmt.
Qed.

End TestCodecLaws.

(** ** The program at work *)

Module RunsFacts.
Import Runs.

Local Existing Instance TestCodec.plistlib.

Local Ltac run := vm_compute; reflexivity.

(** The detector on the binary [Info.plist]. *)
Lemma detect_plist_format_spec_witness :
  detect_plist_format info_path disk = (inr FMT_BINARY, disk).
Proof.
  assert (disk !! info_path = Some info_file) as Hf by run.
  destruct (detect_plist_format_spec info_path disk) as (Hfile & _ & _).
  destruct (Hfile info_file Hf) as (fmt & Hdet & Hbin & _).
  rewrite Hdet. f_equal. f_equal. apply Hbin.
  exists (drop 8 (content info_file)). run.
Defined.

(** The detector on a file of three bytes, the first three of the signature. *)
Lemma detect_plist_format_short_witness :
  detect_plist_format "short.plist" short_disk = (inr FMT_XML, short_disk).
Proof.
  apply (detect_plist_format_short "short.plist" short_disk (File [x62; x70; x6c] 420)).
  - run.
  - vm_compute. lia.
Defined.

(** The write of the temporary file fails; the file is removed and
    the disk is as before. *)
Lemma atomic_write_plist_cleanup_witness :
  atomic_write_plist disk_full info_path info_doc FMT_BINARY disk = (inl OSError, disk)
  ∧ disk !! tmp_name = None.
Proof.
  assert (mkstemp disk_full ".plist.tmp_" (tmp_dir info_path) disk
          = (inr tmp_name, <[tmp_name := File [] 384]> disk)) as Hmk by run.
  assert (atomic_write_plist disk_full info_path info_doc FMT_BINARY disk
          = (inl OSError, (atomic_write_plist disk_full info_path info_doc FMT_BINARY disk).2))
    as Hrun by run.
  assert (remove_fails disk_full = false) as Hrm by run.
  destruct (atomic_write_plist_cleanup _ _ _ _ _ _ _ _ _ Hmk Hrun)
    as (Hfresh & _ & _ & Hremoved).
  destruct (Hremoved Hrm) as [_ Hsame].
  rewrite Hsame in Hrun. by split.
Defined.

(** Cleanup is best effort.  When the removal itself fails: the write of the
    temporary file raises, [os.remove] raises in the [finally] clause, the
    code swallows that, and the temporary file stays, with what had been
    written of it. *)
Lemma atomic_write_plist_cleanup_swallowed :
  mkstemp locked ".plist.tmp_" (tmp_dir info_path) disk
  = (inr tmp_name, <[tmp_name := File [] 384]> disk)
  ∧ (atomic_write_plist locked info_path info_doc FMT_BINARY disk).1 = inl OSError
  ∧ (atomic_write_plist locked info_path info_doc FMT_BINARY disk).2 !! tmp_name
    = Some (File [x62; x70] 384).
Proof. split; [run | split; run]. Qed.

(** The binary [Info.plist] is binary after the update. *)
Lemma update_plist_keeps_format_witness :
  let s' := (update_plist quiet info_path "17.0" "21A123" true None None disk).2 in
  detect_plist_format info_path s' = (inr FMT_BINARY, s').
Proof.
  intros s'.
  assert (detect_plist_format info_path disk = (inr FMT_BINARY, disk)) as Hdet by run.
  assert (update_plist quiet info_path "17.0" "21A123" true None None disk = (inr true, s'))
    as Hrun by run.
  exact (proj1 (update_plist_keeps_format _ _ _ _ _ _ _ _ _ _ _
                  TestCodecLaws.test_dump_keeps_format Hdet Hrun)).
Defined.

(** The update of a manifest whose [Lockdown] entry is a string. *)
Lemma update_plist_invalid_structure_witness :
  update_plist quiet manifest_path "17.0" "21A123" true (Some ["Lockdown"]) None bad_disk
  = (inl (ValueError "Path 'Lockdown' is not a dictionary; cannot write keys there"),
     bad_disk).
Proof.
  assert (bad_disk !! manifest_path = Some bad_manifest_file) as Hf by run.
  assert (plist_load (content bad_manifest_file) = Some bad_manifest) as Hload by run.
  assert ((<["Lockdown" := VStr "none"]> ∅ : gmap string value) !! "Lockdown"
          = Some (VStr "none")) as Hk by run.
  exact (update_plist_invalid_structure quiet manifest_path "17.0" "21A123" true
           (Some ["Lockdown"]) None bad_disk bad_manifest_file bad_manifest
           [] "Lockdown" [] _ (VStr "none") Hf Hload eq_refl eq_refl Hk eq_refl).
Defined.



(** On the binary [Info.plist], after [update_plist] returned true the
    file holds a serialised document. *)
Lemma update_plist_writes_itself_witness :
  let s' := (update_plist quiet info_path "17.0" "21A123" false None None disk).2 in
  ∃ f data bs,
    disk !! info_path = Some f
    ∧ plist_dump data (classify (content f)) = Some bs
    ∧ s' !! info_path = Some (File bs (mode f)).
Proof.
  intros s'.
  assert (update_plist quiet info_path "17.0" "21A123" false None None disk = (inr true, s'))
    as Hrun by run.
  destruct (proj2 (update_plist_writes_itself _ _ _ _ _ _ _ _ _ _ Hrun) eq_refl)
    as (f & data & data' & bs & Hf & _ & _ & _ & Hdump & Hpath).
  exists f, data', bs. split; [exact Hf | split; [exact Hdump | exact Hpath]].
Defined.

(** The update writes: [update_plist] returns true and the file at the
    path is not the file it was, without any caller having written. *)
Lemma update_plist_writes_disk :
  (update_plist quiet info_path "17.0" "21A123" false None None disk).1 = inr true
  ∧ (update_plist quiet info_path "17.0" "21A123" false None None disk).2 !! info_path
    ≠ disk !! info_path.
Proof. split; [run | vm_compute; discriminate]. Qed.

(** On a disk without a backup, the backup is the old file. *)
Lemma update_plist_backup_witness :
  (update_plist quiet info_path "17.0" "21A123" true None None disk).2
    !! (info_path +:+ ".bak")
  = disk !! info_path.
Proof.
  pose (s' := (update_plist quiet info_path "17.0" "21A123" true None None disk).2).
  assert (update_plist quiet info_path "17.0" "21A123" true None None disk = (inr true, s'))
    as Hrun by run.
  assert (disk !! (info_path +:+ ".bak") = None) as Hnone by run.
  destruct (update_plist_backup _ _ _ _ _ _ _ _ _ Hrun) as [_ Hnew].
  destruct (Hnew Hnone) as [_ Htrue].
  exact (proj2 (Htrue eq_refl)).
Defined.



(** The read path on the binary [Info.plist]. *)
Lemma read_versions_spec_witness :
  read_versions info_path None true disk
  = (inr (Some (VStr "16.0"), Some (VStr "20A123")), disk).
Proof.
  assert (disk !! info_path = Some info_file) as Hf by run.
  assert (plist_load (content info_file) = Some info_doc) as Hload by run.
  rewrite (proj1 (read_versions_spec info_path None true disk info_file info_doc Hf Hload)).
  f_equal.
Defined.

End RunsFacts.

(** * Further properties of the code *)

(** ** The store off the key path *)



Section editor_more.
Context `{Plistlib}.



(** The walk below an empty dictionary only creates, and succeeds. *)
Lemma ensure_path_loop_fresh path_keys (root : value) (node : ref) (keys : list string) :
  deref root node = Some (VDict ∅) →
  ∃ root', ensure_path_loop path_keys root node keys = inr (root', node ++ keys)
           ∧ deref root' (node ++ keys) = Some (VDict ∅).
Proof.
  revert root node. induction keys as [|k keys IH]; intros root node Hnode; simpl.
  - exists root. by rewrite app_nil_r.
  - rewrite Hnode, lookup_empty.
    rewrite bool_decide_eq_false_2 by (by intros [? ?]). simpl.
    pose proof (deref_snoc _ _ _ k (deref_setitem _ _ _ k (VDict ∅) Hnode)) as Hnew.
    rewrite lookup_insert_eq in Hnew. rewrite Hnew.
    destruct (IH _ _ Hnew) as (root' & Hrun & Hd).
    exists root'. by rewrite <- (assoc_L (++)) in Hrun, Hd.
Qed.

(** Why the walk fails, when it does. *)
Lemma ensure_path_loop_inl path_keys (root : value) (node : ref) (keys : list string)
    m0 err :
  deref root node = Some (VDict m0) →
  ensure_path_loop path_keys root node keys = inl err →
  err = ValueError (not_a_dictionary path_keys)
  ∧ ∃ pre k rest m v,
      keys = pre ++ k :: rest
      ∧ deref root (node ++ pre) = Some (VDict m)
      ∧ m !! k = Some v
      ∧ is_dict v = false.
Proof.
  revert node m0. induction keys as [|k keys IH]; intros node m0 Hnode; simpl; [done |].
  rewrite Hnode.
  destruct (m0 !! k) as [v1|] eqn:Hk.
  - rewrite bool_decide_eq_true_2 by eauto. simpl.
    rewrite (deref_snoc _ _ _ k Hnode), Hk.
    destruct (is_dict v1) eqn:Hv1.
    + destruct (is_dict_true _ Hv1) as [m1 ->]. intros Hrun.
      assert (deref root (node ++ [k]) = Some (VDict m1)) as Hnk
        by by rewrite (deref_snoc _ _ _ k Hnode).
      destruct (IH _ _ Hnk Hrun) as (-> & pre & k' & rest & m & v & -> & Hd & Hk' & Hv).
      split; [done |]. exists (k :: pre), k', rest, m, v.
      rewrite <- (assoc_L (++)) in Hd. by repeat split.
    + intros Herr. split; [by destruct v1; try done; injection Herr as <- |].
      exists [], k, keys, m0, v1. rewrite app_nil_r. by repeat split.
  - rewrite bool_decide_eq_false_2 by (by intros [? ?]). simpl.
    pose proof (deref_snoc _ _ _ k (deref_setitem _ _ _ k (VDict ∅) Hnode)) as Hnew.
    rewrite lookup_insert_eq in Hnew. rewrite Hnew.
    destruct (ensure_path_loop_fresh path_keys _ _ keys Hnew) as (root' & -> & _). done.
Qed.

Lemma ensure_path_loop_cons path_keys (root : value) (node : ref) (k : string)
    (keys : list string) :
  ensure_path_loop path_keys root node (k :: keys) =
  match deref root node with
  | Some (VDict m) =>
      let root1 :=
        if negb (bool_decide (is_Some (m !! k))) then setitem root node k (VDict ∅) else root in
      match deref root1 (node ++ [k]) with
      | Some (VDict _) => ensure_path_loop path_keys root1 (node ++ [k]) keys
      | _ => inl (ValueError (not_a_dictionary path_keys))
      end
  | _ => inl TypeError
  end.
Proof. reflexivity. Qed.

(** After at least one step the reference designates a dictionary. *)
Lemma ensure_path_loop_target path_keys (root : value) (node : ref) (k : string)
    (keys : list string) root' target :
  ensure_path_loop path_keys root node (k :: keys) = inr (root', target) →
  ∃ m, deref root' target = Some (VDict m).
Proof.
  revert root node k. induction keys as [|k' keys IH]; intros root node k;
    rewrite ensure_path_loop_cons;
    destruct (deref root node) as [[| | | | | | |m0]|]; try done; cbn zeta;
    destruct (deref _ (node ++ [k])) as [[| | | | | | |m1]|] eqn:Hnk; try done.
  - intros [= <- <-]. eauto.
  - apply IH.
Qed.

End editor_more.

Section ensure_more.
Context `{Plistlib}.

Lemma ensure_path_loop_ref path_keys (root : value) (node : ref) (keys : list string)
    root' target :
  ensure_path_loop path_keys root node keys = inr (root', target) → target = node ++ keys.
Proof.
  revert root node. induction keys as [|k keys IH]; intros root node.
  - simpl. intros [= _ <-]. by rewrite app_nil_r.
  - rewrite ensure_path_loop_cons.
    destruct (deref root node) as [[| | | | | | |m0]|]; try done. cbn zeta.
    destruct (deref _ (node ++ [k])) as [[| | | | | | |m1]|]; try done.
    intros Hrun. rewrite (IH _ _ Hrun). by rewrite <- (assoc_L (++)).
Qed.

(** X1. When [ensure_path_dict] fails, either the root of the document is
    not a dictionary (and the path is not empty), or the error is the
    [ValueError] of the function and some segment of the path exists in the
    document with a value that is not a dictionary. *)
Theorem ensure_path_dict_error (root : value) (path_keys : list string) (err : exn) :
  ensure_path_dict root path_keys = inl err →
  (is_dict root = false ∧ path_keys ≠ [] ∧ err = TypeError)
  ∨ (err = ValueError (not_a_dictionary path_keys)
     ∧ ∃ pre k rest m v,
         path_keys = pre ++ k :: rest
         ∧ deref root pre = Some (VDict m)
         ∧ m !! k = Some v
         ∧ is_dict v = false).
Proof.
  unfold ensure_path_dict. intros Hrun.
  destruct (is_dict root) eqn:Hroot.
  - right. destruct (is_dict_true _ Hroot) as [m0 ->].
    by apply (ensure_path_loop_inl path_keys (VDict m0) [] path_keys m0).
  - left. destruct path_keys as [|k keys]; [done |].
    split; [done |]. split; [done |].
    rewrite ensure_path_loop_cons in Hrun. simpl in Hrun.
    destruct root; try done; by injection Hrun as <-.
Qed.

(** X2. What a successful [ensure_path_dict] returns: the reference is the
    whole path; where the document had nothing at the path, the store now
    has an empty dictionary there; where the path led to a dictionary, the
    store is the document, unchanged. *)
Theorem ensure_path_dict_result (root : value) (path_keys : list string) root' target :
  ensure_path_dict root path_keys = inr (root', target) →
  target = path_keys
  ∧ (deref root path_keys = None → deref root' path_keys = Some (VDict ∅))
  ∧ (∀ m, deref root path_keys = Some (VDict m) → root' = root).
Proof.
  unfold ensure_path_dict. intros Hrun.
  pose proof (ensure_path_loop_ref _ _ _ _ _ _ Hrun) as Href. simpl in Href. subst target.
  split; [done |]. split.
  - intros Hnone. destruct path_keys as [|k keys]; [done |].
    destruct (ensure_path_loop_target _ _ _ _ _ _ _ Hrun) as [m Hm].
    destruct (ensure_path_loop_inr _ _ _ _ _ _ _ Hrun Hm) as [_ [[Hd _]|[_ ->]]]; [|done].
    rewrite app_nil_l in Hd. congruence.
  - intros m Hm.
    pose proof (ensure_path_loop_exists path_keys root [] path_keys m Hm) as Hex.
    rewrite app_nil_l in Hex. congruence.
Qed.


End ensure_more.

(** ** More on the atomic writer *)

Section writer_more.
Context `{Plistlib}.

(** X4. For a target that exists, whatever happens: when the call raises,
    the target is the file it was; when it returns, the target holds the
    complete serialisation of the document, with the permission bits of
    the file it replaces.  It never holds part of a serialisation. *)
Theorem atomic_write_plist_all_or_nothing e path data fmt (s : fs) f r s' :
  s !! path = Some f →
  atomic_write_plist e path data fmt s = (r, s') →
  match r with
  | inl _ => s' !! path = Some f
  | inr _ => ∃ bs, plist_dump data fmt = Some bs ∧ s' !! path = Some (File bs (mode f))
  end.
Proof.
  intros Hf Hrun. destruct r as [err|u].
  - apply atomic_write_plist_cases in Hrun
      as [(_ & _ & ->)|(tmp & _ & Hfresh & [(f' & -> & _)|(_ & ? & _)])]; [done | |done].
    destruct (remove_fails e); [|done]. rewrite lookup_insert_ne; [done | congruence].
  - destruct (atomic_write_plist_inr _ _ _ _ _ _ _ _ Hf Hrun) as (bs & Hdump & ->).
    exists bs. by rewrite lookup_insert_eq.
Qed.

(** The body of the [try] when no step fails, for a target that does not
    exist: the permission copy is skipped. *)
Lemma try_body_new_target e path data fmt tmp (s : fs) bs :
  s !! tmp = None →
  s !! path = None →
  tmp ≠ path →
  write_fails e = false →
  plist_dump data fmt = Some bs →
  replace_fails e = false →
  try_body e path data fmt tmp (<[tmp := File [] 384]> s)
  = (inr tt, <[path := File bs 384]> s).
Proof.
  intros Hfresh Hpath Hne Hw Hdump Hr.
  unfold try_body, mbind, M_bind. rewrite dump_to_tmp, Hw, Hdump.
  unfold except_FileNotFoundError, os_stat, os_chmod, os_replace, mbind, M_bind. simpl.
  rewrite lookup_insert_ne, Hpath by done. rewrite lookup_insert_eq, Hr.
  by rewrite delete_insert_eq, delete_id.
Qed.

(** X5. When the target does not exist, the permission copy is skipped
    without an error, whatever [os.stat] and [os.chmod] would do: the write
    succeeds as soon as the dump and the replace do, and the new file has
    the mode [0o600] that [mkstemp] gave the temporary file. *)
Theorem atomic_write_plist_new_target e path data fmt (s : fs) tmp s0 bs :
  s !! path = None →
  mkstemp e ".plist.tmp_" (tmp_dir path) s = (inr tmp, s0) →
  tmp ≠ path →
  write_fails e = false →
  plist_dump data fmt = Some bs →
  replace_fails e = false →
  atomic_write_plist e path data fmt s = (inr tt, <[path := File bs 384]> s).
Proof.
  intros Hpath Hmk Hne Hw Hdump Hr.
  rewrite atomic_write_plist_unfold. unfold mbind at 1, M_bind at 1. rewrite Hmk.
  destruct (mkstemp_try_spec _ _ _ _ _ _ Hmk) as [Hfresh ->].
  unfold try_finally.
  rewrite (try_body_new_target _ _ _ _ _ _ _ Hfresh Hpath Hne Hw Hdump Hr).
  rewrite finally_handler_eq.
  destruct (remove_fails e); [done |].
  by rewrite delete_id by by rewrite lookup_insert_ne.
Qed.

(** X6. Whether the removal of the temporary file fails in the [finally]
    clause never changes what [atomic_write_plist] returns or raises. *)
Theorem atomic_write_plist_result_ignores_cleanup e path data fmt (s : fs) (b : bool) :
  (atomic_write_plist (with_remove_fails b e) path data fmt s).1
  = (atomic_write_plist e path data fmt s).1.
Proof.
  rewrite !atomic_write_plist_unfold. unfold mbind, M_bind.
  change (mkstemp (with_remove_fails b e)) with (mkstemp e).
  destruct (mkstemp e _ _ s) as [[err|tmp] s0]; [done |].
  unfold try_finally.
  change (try_body (with_remove_fails b e) path data fmt tmp)
    with (try_body e path data fmt tmp).
  destruct (try_body e path data fmt tmp s0) as [r s1].
  by rewrite !finally_handler_eq.
Qed.

(** X7. For a target that exists and once the temporary file is created,
    [atomic_write_plist] returns exactly when every step succeeded: the
    write, the serialisation, [os.stat], [os.chmod] and [os.replace]. *)
Theorem atomic_write_plist_succeeds_iff e path data fmt (s : fs) f tmp s0 :
  s !! path = Some f →
  mkstemp e ".plist.tmp_" (tmp_dir path) s = (inr tmp, s0) →
  (atomic_write_plist e path data fmt s).1 = inr tt
  ↔ write_fails e = false ∧ is_Some (plist_dump data fmt) ∧ stat_fails e = false
    ∧ chmod_fails e = false ∧ replace_fails e = false.
Proof.
  intros Hf Hmk.
  rewrite atomic_write_plist_unfold. unfold mbind at 1, M_bind at 1. rewrite Hmk.
  destruct (mkstemp_try_spec _ _ _ _ _ _ Hmk) as [Hfresh ->].
  assert (tmp ≠ path) as Hne by congruence.
  unfold try_finally.
  destruct (try_body e path data fmt tmp _) as [r s1] eqn:Hbody.
  rewrite finally_handler_eq. simpl. revert Hbody.
  unfold try_body, mbind, M_bind. rewrite dump_to_tmp.
  destruct (write_fails e); [intros [= <- _]; split; [done | by intros [? _]] |].
  destruct (plist_dump data fmt) as [bs|];
    [|intros [= <- _]; split; [done | by intros (_ & [? ?] & _)]].
  unfold except_FileNotFoundError, os_stat, os_chmod, os_replace, mbind, M_bind. simpl.
  rewrite lookup_insert_ne, Hf by done.
  destruct (stat_fails e); [intros [= <- _]; split; [done | by intros (_ & _ & ? & _)] |].
  rewrite lookup_insert_eq.
  destruct (chmod_fails e);
    [intros [= <- _]; split; [done | by intros (_ & _ & _ & ? & _)] |].
  rewrite lookup_insert_eq.
  destruct (replace_fails e); intros [= <- _]; split; try done.
  - by intros (_ & _ & _ & _ & ?).
Qed.

End writer_more.

(** ** More on the backup *)

Section backup_more.
Context `{Plistlib}.

(** X8. [backup_file] returns the name of the backup and leaves the file
    itself alone; and once a backup exists, [backup_file] does nothing, in
    any state that has that backup, whatever became of the file: the first
    backup is the one that stays. *)
Theorem backup_file_once e path (s : fs) b s1 :
  backup_file e path s = (inr b, s1) →
  b = path +:+ ".bak"
  ∧ is_Some (s1 !! b)
  ∧ s1 !! path = s !! path
  ∧ ∀ e2 (s2 : fs), s2 !! b = s1 !! b → backup_file e2 path s2 = (inr b, s2).
Proof.
  rewrite backup_file_eq.
  assert (∀ e2 (s2 : fs), is_Some (s2 !! (path +:+ ".bak")) →
            backup_file e2 path s2 = (inr (path +:+ ".bak"), s2)) as Hagain.
  { intros e2 s2 [x Hx]. by rewrite backup_file_eq, Hx. }
  destruct (s !! (path +:+ ".bak")) as [x|] eqn:Hbak.
  - intros [= <- <-]. rewrite Hbak.
    repeat split; eauto; intros e2 s2 Hs2; apply Hagain; rewrite Hs2; eauto.
  - destruct (s !! path) as [f|] eqn:Hf; [|done].
    destruct (copy_fails e); [done |]. intros [= <- <-].
    rewrite lookup_insert_eq, lookup_insert_ne by apply bak_ne.
    repeat split; eauto; intros e2 s2 Hs2; apply Hagain; rewrite Hs2; eauto.
Qed.

End backup_more.

(** ** What [update_plist] does to the other files *)

Section update_others.
Context `{Plistlib}.

(** An [update_plist] that raises leaves the file at the path as it was. *)
Lemma update_plist_inl_target e path product_version build_version make_backup key_path
    key_names (s : fs) err s' :
  update_plist e path product_version build_version make_backup key_path key_names s
  = (inl err, s') →
  s' !! path = s !! path.
Proof.
  rewrite update_plist_unfold.
  destruct (s !! path) as [f|] eqn:Hf; [|by intros [= _ <-]].
  destruct (plist_load (content f)) as [data|]; [|intros [= _ <-]; by rewrite Hf].
  destruct (edit data _ _ _ _) as [err'|[data' changed]]; [intros [= _ <-]; by rewrite Hf |].
  destruct changed; [|done].
  intros Hrun.
  destruct (persist_cases _ _ _ _ _ _ _ _ _ Hf Hrun)
    as [(_ & _ & _ & _ & ->)|(r0 & Hw & Hr)]; [by rewrite Hf |].
  destruct r0 as [err0|u]; [|done].
  apply atomic_write_plist_cases in Hw
    as [(_ & _ & ->)|(tmp & _ & Hfresh & [(f' & -> & _)|(_ & ? & _)])]; [| |done].
  - by apply backed_up_path.
  - pose proof (backed_up_path make_backup _ _ _ Hf) as Hpath.
    destruct (remove_fails e); [|done]. rewrite lookup_insert_ne; [done | congruence].
Qed.

(** Whatever its outcome, [update_plist] keeps every file that is there
    and is neither the file at the path nor its backup. *)
Lemma update_plist_keeps_existing e path product_version build_version make_backup
    key_path key_names (s : fs) r s' p x :
  update_plist e path product_version build_version make_backup key_path key_names s
  = (r, s') →
  p ≠ path → p ≠ path +:+ ".bak" → s !! p = Some x → s' !! p = Some x.
Proof.
  rewrite update_plist_unfold. intros Hrun Hp Hbak Hx.
  destruct (s !! path) as [f|] eqn:Hf; [|by injection Hrun as _ <-].
  destruct (plist_load (content f)) as [data|]; [|by injection Hrun as _ <-].
  destruct (edit data _ _ _ _) as [err'|[data' changed]]; [by injection Hrun as _ <- |].
  destruct changed; [|by injection Hrun as _ <-].
  destruct (persist_cases _ _ _ _ _ _ _ _ _ Hf Hrun)
    as [(_ & _ & _ & _ & ->)|(r0 & Hw & _)]; [done |].
  apply (atomic_write_plist_keeps _ _ _ _ _ _ _ _ _ Hw Hp).
  unfold backed_up. destruct (make_backup && _); [by rewrite lookup_insert_ne | done].
Qed.

(** An [update_plist] that returns touches nothing but the file at the
    path and its backup. *)
Lemma update_plist_others e path product_version build_version make_backup key_path
    key_names (s : fs) c s' p :
  update_plist e path product_version build_version make_backup key_path key_names s
  = (inr c, s') →
  p ≠ path → p ≠ path +:+ ".bak" → s' !! p = s !! p.
Proof.
  intros Hrun Hp Hbak.
  destruct (update_plist_inr _ _ _ _ _ _ _ _ _ _ Hrun) as (f & data & data' & _ & _ & _ & Hc).
  destruct c; [|by subst].
  destruct Hc as (_ & bs & _ & ->). unfold backed_up.
  rewrite lookup_insert_ne by done.
  destruct (make_backup && _); [by rewrite lookup_insert_ne | done].
Qed.

(** After an [update_plist] that returns, the file at the path is there. *)
Lemma update_plist_inr_target e path product_version build_version make_backup key_path
    key_names (s : fs) c s' :
  update_plist e path product_version build_version make_backup key_path key_names s
  = (inr c, s') →
  is_Some (s' !! path).
Proof.
  intros Hrun.
  destruct (update_plist_inr _ _ _ _ _ _ _ _ _ _ Hrun) as (f & data & data' & Hf & _ & _ & Hc).
  destruct c; [|by subst; eauto].
  destruct Hc as (_ & bs & _ & ->). rewrite lookup_insert_eq. eauto.
Qed.

(** [read_versions] on a file that does not load. *)
Lemma read_versions_invalid (path : string) (key_path : option (list string))
    (allow_alias : bool) (s : fs) (f : file) :
  s !! path = Some f →
  plist_load (content f) = None →
  read_versions path key_path allow_alias s = (inl InvalidFileException, s).
Proof.
  intros Hf Hload.
  unfold read_versions, load_plist, read_bytes, mbind, M_bind. cbn beta.
  by rewrite Hf, Hload.
Qed.

Lemma key_names_of_main :
  prod_key info_names = "Product Version" ∧ build_key info_names = "Build Version"
  ∧ prod_key manifest_names = "ProductVersion" ∧ build_key manifest_names = "BuildVersion".
Proof. repeat split; vm_compute; reflexivity. Qed.

End update_others.

(** ** More on the update *)

Section update_more.
Context `{Plistlib}.


(** The edit of a document that has the two targets changes nothing. *)
Lemma edit_noop data key_path key_names product_version build_version :
  leaf data (default [] key_path) (prod_key key_names) = Some (VStr product_version) →
  leaf data (default [] key_path) (build_key key_names) = Some (VStr build_version) →
  edit data key_path key_names product_version build_version = inr (data, false).
Proof.
  unfold leaf. intros Hp Hb.
  destruct (deref data (default [] key_path)) as [[| | | | | | |m]|] eqn:Hd; try done.
  unfold edit, ensure_path_dict.
  pose proof (ensure_path_loop_exists (default [] key_path) data [] _ m Hd) as Hens.
  rewrite app_nil_l in Hens. rewrite Hens.
  assert (∀ key val, m !! key = Some (VStr val) →
            set_key_if_changed data (default [] key_path) key val = inr (data, false))
    as Hset.
  { intros key val Hk. unfold set_key_if_changed.
    by rewrite Hd, (proj2 (py_eq_str_true _ _) Hk). }
  by rewrite (Hset _ _ Hp), (Hset _ _ Hb).
Qed.

(** A leaf is the target or it is not. *)
Lemma leaf_target_dec (o : option value) (val : string) :
  o = Some (VStr val) ∨ o ≠ Some (VStr val).
Proof.
  destruct (py_eq_str o val) eqn:Heq.
  - left. by apply py_eq_str_true.
  - right. intros Ho. apply py_eq_str_true in Ho. congruence.
Qed.

(** After [update_plist] returned, the document in the file has the two
    targets, for two distinct key names and a [load] that reads back what
    [dump] wrote. *)
Lemma update_plist_result_doc e path product_version build_version make_backup key_path
    key_names (s : fs) c s' :
  load_after_dump →
  prod_key key_names ≠ build_key key_names →
  update_plist e path product_version build_version make_backup key_path key_names s
  = (inr c, s') →
  ∃ f' data',
    s' !! path = Some f'
    ∧ plist_load (content f') = Some data'
    ∧ leaf data' (default [] key_path) (prod_key key_names) = Some (VStr product_version)
    ∧ leaf data' (default [] key_path) (build_key key_names) = Some (VStr build_version).
Proof.
  intros Hlaw Hne Hrun.
  destruct (update_plist_inr _ _ _ _ _ _ _ _ _ _ Hrun)
    as (f & data & data' & Hf & Hload & Hedit & Hc).
  destruct (edit_inr _ _ _ _ _ _ _ Hedit) as (data1 & m & _ & _ & Hleaf & Hd' & Hflag).
  destruct c.
  - destruct Hc as (_ & bs & Hdump & ->).
    exists (File bs (mode f)), data'. rewrite lookup_insert_eq. simpl.
    split; [done |]. split; [by apply (Hlaw _ _ _ Hdump) |].
    unfold leaf. rewrite Hd'.
    by rewrite lookup_insert_ne, !lookup_insert_eq.
  - subst s'. exists f, data. split; [done |]. split; [done |].
    rewrite <- !Hleaf.
    destruct (leaf_target_dec (m !! prod_key key_names) product_version) as [Hp|Hp];
      [|by discriminate (proj2 Hflag (or_introl Hp))].
    split; [done |].
    destruct (leaf_target_dec (<[prod_key key_names := VStr product_version]> m
                                 !! build_key key_names) build_version) as [Hb|Hb];
      [|by discriminate (proj2 Hflag (or_intror Hb))].
    by rewrite lookup_insert_ne in Hb.
Qed.

(** [read_versions] on a file that loads. *)
Lemma read_versions_eq (path : string) (key_path : option (list string))
    (allow_alias : bool) (s : fs) (f : file) (data : value) :
  s !! path = Some f →
  plist_load (content f) = Some data →
  read_versions path key_path allow_alias s
  = (inr (or_else (leaf data (default [] key_path) "Product Version")
            (if allow_alias then leaf data (default [] key_path) "ProductVersion" else None),
          or_else (leaf data (default [] key_path) "Build Version")
            (if allow_alias then leaf data (default [] key_path) "BuildVersion" else None)),
     s).
Proof.
  intros Hf Hload.
  unfold read_versions, load_plist, read_bytes, mbind, M_bind. cbn beta.
  rewrite Hf, Hload. unfold mret, M_ret. rewrite read_walk. unfold leaf.
  destruct (deref data (default [] key_path)) as [[| | | | | | |m]|]; simpl;
    destruct allow_alias; by rewrite ?or_else_None, ?lookup_empty.
Qed.


(** X10. An [update_plist] that raises, whatever the error and wherever it
    comes from, leaves the file at the path as it was, and with it every
    other file that was there, the backup apart. *)
Theorem update_plist_failure_keeps_files e path product_version build_version
    make_backup key_path key_names (s : fs) err s' :
  update_plist e path product_version build_version make_backup key_path key_names s
  = (inl err, s') →
  s' !! path = s !! path
  ∧ ∀ p x, p ≠ path +:+ ".bak" → s !! p = Some x → s' !! p = Some x.
Proof.
  intros Hrun. pose proof (update_plist_inl_target _ _ _ _ _ _ _ _ _ _ Hrun) as Htarget.
  split; [done |]. intros p x Hbak Hx.
  destruct (decide (p = path)) as [->|Hp]; [by rewrite Htarget |].
  by apply (update_plist_keeps_existing _ _ _ _ _ _ _ _ _ _ _ _ Hrun).
Qed.

(** X11. When the document already has the two targets, [update_plist]
    returns false and leaves the disk exactly as it is, in every
    environment and also when a backup is asked for: no backup is made. *)
Theorem update_plist_noop e path product_version build_version make_backup key_path
    key_names (s : fs) f data :
  s !! path = Some f →
  plist_load (content f) = Some data →
  leaf data (default [] key_path) (prod_key key_names) = Some (VStr product_version) →
  leaf data (default [] key_path) (build_key key_names) = Some (VStr build_version) →
  update_plist e path product_version build_version make_backup key_path key_names s
  = (inr false, s).
Proof.
  intros Hf Hload Hp Hb.
  by rewrite update_plist_unfold, Hf, Hload, (edit_noop _ _ _ _ _ Hp Hb).
Qed.

(** X12. An [update_plist] that returns touches nothing but the file at
    the path and its backup, and without the backup flag nothing but the
    file at the path. *)
Theorem update_plist_touches_only e path product_version build_version make_backup
    key_path key_names (s : fs) c s' :
  update_plist e path product_version build_version make_backup key_path key_names s
  = (inr c, s') →
  (∀ p, p ≠ path → p ≠ path +:+ ".bak" → s' !! p = s !! p)
  ∧ (make_backup = false → ∀ p, p ≠ path → s' !! p = s !! p).
Proof.
  intros Hrun. split.
  - intros p Hp Hbak. by apply (update_plist_others _ _ _ _ _ _ _ _ _ _ _ Hrun).
  - destruct (update_plist_inr _ _ _ _ _ _ _ _ _ _ Hrun)
      as (f & data & data' & _ & _ & _ & Hc).
    destruct c; [|by subst].
    destruct Hc as (_ & bs & _ & ->). unfold backed_up.
    intros -> p Hp. by rewrite lookup_insert_ne.
Qed.

(** X13. Reading after updating gives the targets: after [update_plist]
    returned for the default key names (those of [Info.plist]),
    [read_versions] on the same file and key path returns the two target
    strings, whichever flag the update returned.  ([plistlib.load] is
    assumed to read back what [plistlib.dump] wrote.) *)
Theorem update_then_read e path product_version build_version make_backup key_path
    (allow_alias : bool) (s : fs) c s' :
  load_after_dump →
  update_plist e path product_version build_version make_backup key_path None s
  = (inr c, s') →
  read_versions path key_path allow_alias s'
  = (inr (Some (VStr product_version), Some (VStr build_version)), s').
Proof.
  intros Hlaw Hrun.
  assert (prod_key None ≠ build_key None) as Hne by (cbv; discriminate).
  destruct (update_plist_result_doc _ _ _ _ _ _ _ _ _ _ Hlaw Hne Hrun)
    as (f' & data' & Hf' & Hload' & Hp & Hb).
  rewrite (read_versions_eq _ _ _ _ _ _ Hf' Hload').
  change (prod_key None) with "Product Version" in Hp.
  change (build_key None) with "Build Version" in Hb.
  by rewrite Hp, Hb.
Qed.

(** X14. A document whose root is not a dictionary cannot be updated:
    [update_plist] raises [AttributeError] for an empty key path and
    [TypeError] otherwise, and the disk is as it was. *)
Theorem update_plist_root_not_dict e path product_version build_version make_backup
    key_path key_names (s : fs) f data :
  s !! path = Some f →
  plist_load (content f) = Some data →
  is_dict data = false →
  update_plist e path product_version build_version make_backup key_path key_names s
  = (inl (match default [] key_path with [] => AttributeError | _ => TypeError end), s).
Proof.
  intros Hf Hload Hroot. rewrite update_plist_unfold, Hf, Hload.
  unfold edit, ensure_path_dict.
  destruct (default [] key_path) as [|k keys].
  - simpl. unfold set_key_if_changed. simpl. by destruct data.
  - rewrite ensure_path_loop_cons. simpl. by destruct data.
Qed.

End update_more.

(** ** The command-line program *)

Lemma string_app_assoc (s t u : string) : (s +:+ t) +:+ u = s +:+ (t +:+ u).
Proof.
  induction s as [|c s IH]; [done |].
  change (String c ((s +:+ t) +:+ u) = String c (s +:+ t +:+ u)). by rewrite IH.
Qed.

Lemma string_app_inj (s t u : string) : s +:+ t = s +:+ u → t = u.
Proof. induction s as [|c s IH]; [done | intros [= ?]; by apply IH]. Qed.

(** [os.path.join a b] ends with [b], after a text that depends on [a]
    only. *)
Lemma os_path_join_prefix (a : string) : ∃ pre, ∀ b, os_path_join a b = pre +:+ b.
Proof.
  unfold os_path_join. destruct (rev _) as [|c l].
  - by exists EmptyString.
  - destruct (is_slash c).
    + by exists a.
    + exists (a +:+ "/"). intros b. by rewrite string_app_assoc.
Qed.

Section command_line_facts.
Context `{Plistlib} `{Builtins} (h : host).

(** The two files and their backups have four different names. *)
Lemma info_manifest_ne a : info_path_of a ≠ manifest_path_of a.
Proof.
  unfold info_path_of, manifest_path_of.
  destruct (os_path_join_prefix (py_expanduser (bundle a))) as [pre Hpre].
  rewrite !Hpre. intros Heq. by apply string_app_inj in Heq.
Qed.

Lemma manifest_ne_info_bak a : manifest_path_of a ≠ info_path_of a +:+ ".bak".
Proof.
  unfold info_path_of, manifest_path_of.
  destruct (os_path_join_prefix (py_expanduser (bundle a))) as [pre Hpre].
  rewrite !Hpre, string_app_assoc. intros Heq. by apply string_app_inj in Heq.
Qed.

Lemma info_ne_manifest_bak a : info_path_of a ≠ manifest_path_of a +:+ ".bak".
Proof.
  unfold info_path_of, manifest_path_of.
  destruct (os_path_join_prefix (py_expanduser (bundle a))) as [pre Hpre].
  rewrite !Hpre, string_app_assoc. intros Heq. by apply string_app_inj in Heq.
Qed.

Lemma validate_bundle_path_eq bundle_path w :
  validate_bundle_path h bundle_path w =
  (if negb (is_dir h bundle_path || bool_decide (is_Some (w_fs w !! bundle_path)))
   then inl (SystemExit ("Error: Path does not exist: " +:+ bundle_path))
   else if negb (is_dir h bundle_path)
        then inl (SystemExit ("Error: Path is not a directory-like bundle: " +:+ bundle_path))
        else inr tt, w).
Proof.
  unfold validate_bundle_path, os_path_isfile, mbind, IO_bind. cbn beta iota.
  destruct (negb (_ || _)); [done |]. by destruct (negb _).
Qed.

Lemma missing_files_eq (paths : list string) w :
  missing_files paths w = (inr (filter (λ p, w_fs w !! p = None) paths), w).
Proof.
  induction paths as [|p paths IH]; [done |].
  cbn [missing_files]. unfold mbind at 1, IO_bind at 1, os_path_isfile at 1. cbn beta iota.
  unfold mbind, IO_bind. rewrite IH. cbn beta iota. unfold mret, IO_ret.
  rewrite filter_cons.
  destruct (w_fs w !! p) as [f|] eqn:Hp.
  - rewrite bool_decide_eq_true_2 by eauto. by rewrite decide_False.
  - rewrite bool_decide_eq_false_2 by (by intros [? ?]). by rewrite decide_True.
Qed.

(** [read_versions] writes nothing. *)
Lemma read_versions_fs path key_path allow_alias (s : fs) :
  (read_versions path key_path allow_alias s).2 = s.
Proof.
  unfold read_versions, load_plist, read_bytes, mbind, M_bind. cbn beta.
  destruct (s !! path) as [f|]; [|done]. destruct (plist_load _); [|done].
  unfold mret, M_ret. cbn beta iota.
  destruct (foldl _ _ _); try done. by destruct allow_alias.
Qed.

Lemma run_read_versions path key_path allow_alias w :
  run (read_versions path key_path allow_alias) w =
  (match (read_versions path key_path allow_alias (w_fs w)).1 with
   | inl err => inl (Raised err)
   | inr x => inr x
   end, w).
Proof.
  unfold run. pose proof (read_versions_fs path key_path allow_alias (w_fs w)) as Hs.
  destruct (read_versions _ _ _ _) as [[err|x] s]; simpl in *; subst s; by destruct w.
Qed.

(** One round of the loop of [main]. *)
Lemma update_one_eq a version' build' updated_any plist_path label key_path key_names w :
  update_one h a version' build' updated_any plist_path label key_path key_names w =
  match update_plist (os_env h plist_path) plist_path version' build' (backup a)
          key_path key_names (w_fs w) with
  | (inl err, s) =>
      (inl (SystemExit ("Failed to update " +:+ label +:+ ": " +:+ py_str err)),
       World s (w_stdin w) (w_stdout w))
  | (inr true, s) =>
      (inr true,
       World s (w_stdin w)
         (w_stdout w ++ ["Updated " +:+ label +:+ ": Product Version -> " +:+ version'
                         +:+ ", Build Version -> " +:+ build']))
  | (inr false, s) =>
      (inr updated_any,
       World s (w_stdin w)
         (w_stdout w ++ [label +:+ " already has target versions. No change."]))
  end.
Proof.
  unfold update_one, run_except, mbind, IO_bind.
  by destruct (update_plist _ _ _ _ _ _ _ _) as [[err|[]] s].
Qed.

End command_line_facts.

Section main_facts.
Context `{Plistlib} `{Builtins} (h : host).

Ltac io_bind := unfold mbind at 1, IO_bind at 1.
Ltac io_ret := io_bind; unfold mret at 1, IO_ret at 1; cbn beta iota.
Ltac io_print := io_bind; unfold print at 1; cbn [w_fs w_stdin w_stdout]; cbn beta iota.

Lemma not_yes_n : "n" ∉ ["y"; "yes"].
Proof. rewrite !elem_of_cons, elem_of_nil. by intros [?|[?|?]]. Qed.

(** A ready run reaches the loop with the disk as it was, one line read,
    and the current values and the question printed. *)
Lemma main_ready a w version' build' d_info d_manifest :
  ready h a w version' build' d_info d_manifest →
  ∃ out, main h a w
         = update_phase h a version' build'
             (World (w_fs w) (tail (w_stdin w)) (w_stdout w ++ out)).
Proof.
  intros (Hdir & (fi & Hfi & Hli) & (fm & Hfm & Hlm) & (line & Hline & Hyes)
          & Hv & Hvne & Hb & Hbne).
  unfold main. cbn zeta. fold (info_path_of a) (manifest_path_of a).
  io_bind. rewrite validate_bundle_path_eq, Hdir. cbn [orb negb]. cbn beta iota.
  io_bind. rewrite missing_files_eq.
  rewrite filter_cons_False by (by rewrite Hfi).
  rewrite filter_cons_False by (by rewrite Hfm).
  rewrite filter_nil. cbn beta iota. io_ret.
  io_bind. rewrite run_read_versions, (read_versions_eq _ _ _ _ _ _ Hfi Hli).
  cbn [fst]. cbn beta iota.
  io_bind. rewrite run_read_versions, (read_versions_eq _ _ _ _ _ _ Hfm Hlm).
  cbn [fst]. cbn beta iota.
  io_print. io_print. io_print.
  io_bind. unfold input at 1. cbn [w_fs w_stdin w_stdout].
  destruct (w_stdin w) as [|l rest]; [done |]. injection Hline as ->. cbn beta iota.
  rewrite (bool_decide_eq_true_2 _ Hyes). cbn [negb].
  rewrite Hv, Hb, (bool_decide_eq_false_2 _ Hvne), (bool_decide_eq_false_2 _ Hbne).
  io_ret. rewrite (bool_decide_eq_false_2 _ Hvne). io_ret.
  io_ret. rewrite (bool_decide_eq_false_2 _ Hbne). io_ret.
  rewrite <- !(assoc_L (++)). by eexists.
Qed.

(** The loop on a disk where both documents have the targets. *)
Lemma update_phase_noop a version' build' w fi d_info fm d_manifest :
  w_fs w !! info_path_of a = Some fi →
  plist_load (content fi) = Some d_info →
  w_fs w !! manifest_path_of a = Some fm →
  plist_load (content fm) = Some d_manifest →
  leaf d_info [] "Product Version" = Some (VStr version') →
  leaf d_info [] "Build Version" = Some (VStr build') →
  leaf d_manifest ["Lockdown"] "ProductVersion" = Some (VStr version') →
  leaf d_manifest ["Lockdown"] "BuildVersion" = Some (VStr build') →
  update_phase h a version' build' w
  = (inr tt,
     World (w_fs w) (w_stdin w)
       (w_stdout w ++ ["Info.plist already has target versions. No change.";
                       "Manifest.plist already has target versions. No change.";
                       "No changes: Both plists already contained target versions."])).
Proof.
  intros Hfi Hli Hfm Hlm Hip Hib Hmp Hmb.
  destruct key_names_of_main as (Kip & Kib & Kmp & Kmb).
  unfold update_phase.
  io_bind. rewrite update_one_eq, update_plist_unfold, Hfi, Hli.
  rewrite edit_noop by (by rewrite ?Kip, ?Kib). cbn beta iota.
  io_bind. rewrite update_one_eq. cbn [w_fs w_stdin w_stdout].
  rewrite update_plist_unfold, Hfm, Hlm.
  rewrite edit_noop by (by rewrite ?Kmp, ?Kmb). cbn beta iota.
  unfold print. cbn [w_fs w_stdin w_stdout]. by rewrite <- !(assoc_L (++)).
Qed.

(** The loop, when it runs to its end: both updates returned, and both
    documents have the targets on the disk it leaves. *)
Lemma update_phase_returned a version' build' w u w' :
  load_after_dump →
  update_phase h a version' build' w = (inr u, w') →
  (∃ f d, w_fs w' !! info_path_of a = Some f ∧ plist_load (content f) = Some d
          ∧ leaf d [] "Product Version" = Some (VStr version')
          ∧ leaf d [] "Build Version" = Some (VStr build'))
  ∧ (∃ f d, w_fs w' !! manifest_path_of a = Some f ∧ plist_load (content f) = Some d
            ∧ leaf d ["Lockdown"] "ProductVersion" = Some (VStr version')
            ∧ leaf d ["Lockdown"] "BuildVersion" = Some (VStr build'))
  ∧ w_stdin w' = w_stdin w.
Proof.
  intros Hlaw. destruct key_names_of_main as (Kip & Kib & Kmp & Kmb).
  unfold update_phase. io_bind. rewrite update_one_eq.
  destruct (update_plist _ (info_path_of a) _ _ _ _ _ _) as [[err|c1] s1] eqn:H1; [done |].
  assert (∀ (x : bool) (w1 : world),
            (if c1 then (inr true, w1) else (inr x, w1))
            = (@inr outcome bool (if c1 then true else x), w1)) as Hc1 by (by destruct c1).
  destruct c1; cbn beta iota.
  all: io_bind; rewrite update_one_eq; cbn [w_fs w_stdin w_stdout].
  all: destruct (update_plist _ (manifest_path_of a) _ _ _ _ _ _) as [[err|c2] s2] eqn:H2;
    [done |].
  all: assert (prod_key info_names ≠ build_key info_names) as Hine
    by (rewrite Kip, Kib; discriminate).
  all: assert (prod_key manifest_names ≠ build_key manifest_names) as Hmne
    by (rewrite Kmp, Kmb; discriminate).
  all: destruct (update_plist_result_doc _ _ _ _ _ _ _ _ _ _ Hlaw Hine H1)
    as (fi & di & Hfi & Hli & Hip & Hib).
  all: destruct (update_plist_result_doc _ _ _ _ _ _ _ _ _ _ Hlaw Hmne H2)
    as (fm & dm & Hfm & Hlm & Hmp & Hmb).
  all: pose proof (update_plist_others _ _ _ _ _ _ _ _ _ _ (info_path_of a) H2
                     (info_manifest_ne a) (info_ne_manifest_bak a)) as Hkeep.
  all: rewrite Kip in Hip; rewrite Kib in Hib; rewrite Kmp in Hmp; rewrite Kmb in Hmb.
  all: intros Hrun;
    assert (w_fs w' = s2 ∧ w_stdin w' = w_stdin w) as [-> ->]
      by (destruct c2; unfold print in Hrun; cbn [w_fs w_stdin w_stdout] in Hrun;
          injection Hrun as _ <-; done).
  all: split; [exists fi, di; by rewrite Hkeep | split; [by exists fm, dm | done]].
Qed.

(** X15. [main] stops before it reads, prints or writes anything when
    the bundle is not a directory or when one of the two plists is not
    there: it exits with a message, and the disk, the input and the output
    are as they were. *)
Theorem main_rejects_bad_bundle a w :
  is_dir h (py_expanduser (bundle a)) = false
  ∨ w_fs w !! info_path_of a = None ∨ w_fs w !! manifest_path_of a = None →
  ∃ msg, run_main h a w = (SystemExit msg, w).
Proof.
  intros Hbad. unfold run_main, main. cbn zeta. io_bind. rewrite validate_bundle_path_eq.
  destruct (is_dir h _) eqn:Hdir; cycle 1.
  { cbn [orb]. destruct (bool_decide _); cbn [negb]; cbn beta iota; eauto. }
  cbn [orb negb]. cbn beta iota.
  io_bind. rewrite missing_files_eq. cbn beta iota.
  fold (info_path_of a) (manifest_path_of a).
  destruct (filter _ _) as [|p missing] eqn:Hmissing.
  - exfalso. destruct Hbad as [?|[Hnone|Hnone]]; [done | |].
    + by rewrite filter_cons_True in Hmissing.
    + rewrite filter_cons in Hmissing. destruct (decide _); [done |].
      by rewrite filter_cons_True in Hmissing.
  - io_bind. unfold sys_exit at 1. cbn beta iota. eauto.
Qed.

(** X16. A plist that is there and does not load is not reported with a
    message: [read_versions] runs outside any [try], so the exception of
    [plistlib.load] ends [main], before anything is printed. *)
Theorem main_unreadable_plist a w fi fm :
  is_dir h (py_expanduser (bundle a)) = true →
  w_fs w !! info_path_of a = Some fi →
  w_fs w !! manifest_path_of a = Some fm →
  plist_load (content fi) = None ∨ plist_load (content fm) = None →
  run_main h a w = (Raised InvalidFileException, w).
Proof.
  intros Hdir Hfi Hfm Hbad.
  unfold run_main, main. cbn zeta. fold (info_path_of a) (manifest_path_of a).
  io_bind. rewrite validate_bundle_path_eq, Hdir. cbn [orb negb]. cbn beta iota.
  io_bind. rewrite missing_files_eq.
  rewrite filter_cons_False by (by rewrite Hfi).
  rewrite filter_cons_False by (by rewrite Hfm).
  rewrite filter_nil. cbn beta iota. io_ret.
  io_bind. rewrite run_read_versions.
  destruct (plist_load (content fi)) as [d|] eqn:Hli; cycle 1.
  { by rewrite (read_versions_invalid _ _ _ _ _ Hfi Hli). }
  rewrite (read_versions_eq _ _ _ _ _ _ Hfi Hli). cbn [fst]. cbn beta iota.
  destruct Hbad as [?|Hlm]; [done |].
  io_bind. rewrite run_read_versions.
  by rewrite (read_versions_invalid _ _ _ _ _ Hfm Hlm).
Qed.

(** X17. [main] writes only after a yes: when the line it reads as the
    answer is not [y] or [yes] (in any case, spaces around it apart), or
    when there is no line to read, the disk after the run is the disk
    before it, however the run ends. *)
Theorem main_without_yes_keeps_disk a w :
  (∀ line, head (w_stdin w) = Some line → py_lower (py_strip line) ∉ ["y"; "yes"]) →
  w_fs (run_main h a w).2 = w_fs w.
Proof.
  intros Hno. unfold run_main, main. cbn zeta.
  io_bind. rewrite validate_bundle_path_eq.
  destruct (negb (_ || _)); [done |]. destruct (negb _); [done |]. cbn beta iota.
  io_bind. rewrite missing_files_eq. cbn beta iota.
  io_bind. destruct (filter _ _) as [|p missing]; [|done].
  unfold mret at 1, IO_ret at 1. cbn beta iota.
  io_bind. rewrite run_read_versions.
  destruct (read_versions _ _ _ _).1 as [err|[info_pv info_bv]]; [done |]. cbn beta iota.
  io_bind. rewrite run_read_versions.
  destruct (read_versions _ _ _ _).1 as [err|[man_pv man_bv]]; [done |]. cbn beta iota.
  io_print. io_print. io_print.
  io_bind. unfold input at 1. cbn [w_fs w_stdin w_stdout].
  destruct (w_stdin w) as [|line rest]; cbn beta iota.
  - rewrite (bool_decide_eq_false_2 _ not_yes_n). cbn [negb].
    io_print. by unfold return_.
  - rewrite (bool_decide_eq_false_2 _ (Hno line eq_refl)). cbn [negb].
    io_print. by unfold return_.
Qed.

(** X18. When the update of [Info.plist] fails, [main] exits with
    [Failed to update Info.plist] and never turns to [Manifest.plist]: both
    files are as they were. *)
Theorem main_info_failure a w version' build' d_info d_manifest err s1 :
  ready h a w version' build' d_info d_manifest →
  update_plist (os_env h (info_path_of a)) (info_path_of a) version' build' (backup a)
    None info_names (w_fs w) = (inl err, s1) →
  (∃ out, run_main h a w
          = (SystemExit ("Failed to update Info.plist: " +:+ py_str err),
             World s1 (tail (w_stdin w)) (w_stdout w ++ out)))
  ∧ s1 !! info_path_of a = w_fs w !! info_path_of a
  ∧ s1 !! manifest_path_of a = w_fs w !! manifest_path_of a.
Proof.
  intros Hready H1. pose proof Hready as (_ & _ & (fm & Hfm & _) & _).
  destruct (main_ready _ _ _ _ _ _ Hready) as [out Hmain]. split; [|split].
  - exists out. unfold run_main. rewrite Hmain. unfold update_phase.
    io_bind. rewrite update_one_eq. cbn [w_fs w_stdin w_stdout]. by rewrite H1.
  - apply (update_plist_inl_target _ _ _ _ _ _ _ _ _ _ H1).
  - rewrite Hfm.
    apply (update_plist_keeps_existing _ _ _ _ _ _ _ _ _ _ _ _ H1); [| |done].
    + intros Heq. by apply (info_manifest_ne a).
    + apply manifest_ne_info_bak.
Qed.

(** X19. The two updates are not one transaction.  When the update of
    [Manifest.plist] fails after the one of [Info.plist] returned, [main]
    exits with [Failed to update Manifest.plist], the manifest is as it was,
    and [Info.plist] stays as its update left it: it is not restored. *)
Theorem main_manifest_failure a w version' build' d_info d_manifest c1 s1 err s2 :
  ready h a w version' build' d_info d_manifest →
  update_plist (os_env h (info_path_of a)) (info_path_of a) version' build' (backup a)
    None info_names (w_fs w) = (inr c1, s1) →
  update_plist (os_env h (manifest_path_of a)) (manifest_path_of a) version' build'
    (backup a) (Some ["Lockdown"]) manifest_names s1 = (inl err, s2) →
  (∃ out, run_main h a w
          = (SystemExit ("Failed to update Manifest.plist: " +:+ py_str err),
             World s2 (tail (w_stdin w)) (w_stdout w ++ out)))
  ∧ s2 !! info_path_of a = s1 !! info_path_of a
  ∧ s2 !! manifest_path_of a = w_fs w !! manifest_path_of a.
Proof.
  intros Hready H1 H2.
  destruct (main_ready _ _ _ _ _ _ Hready) as [out Hmain]. split; [|split].
  - unfold run_main. rewrite Hmain. unfold update_phase.
    io_bind. rewrite update_one_eq. cbn [w_fs w_stdin w_stdout]. rewrite H1.
    destruct c1; cbn beta iota.
    all: io_bind; rewrite update_one_eq; cbn [w_fs w_stdin w_stdout]; rewrite H2.
    all: rewrite <- ?(assoc_L (++)); by eexists.
  - destruct (update_plist_inr_target _ _ _ _ _ _ _ _ _ _ H1) as [x Hx]. rewrite Hx.
    apply (update_plist_keeps_existing _ _ _ _ _ _ _ _ _ _ _ _ H2); [| |done].
    + apply info_manifest_ne.
    + apply info_ne_manifest_bak.
  - rewrite (update_plist_inl_target _ _ _ _ _ _ _ _ _ _ H2).
    apply (update_plist_others _ _ _ _ _ _ _ _ _ _ _ H1).
    + intros Heq. by apply (info_manifest_ne a).
    + apply manifest_ne_info_bak.
Qed.

(** X20. When [main] runs to its end after a yes, with both versions on
    the command line, both documents on the disk have the two targets:
    [Info.plist] at its root under the names with a space, [Manifest.plist]
    in [Lockdown] under the names without.  ([plistlib.load] is assumed to
    read back what [plistlib.dump] wrote.) *)
Theorem main_returned_has_targets a w version' build' d_info d_manifest w' :
  load_after_dump →
  ready h a w version' build' d_info d_manifest →
  run_main h a w = (Returned None, w') →
  (∃ f d, w_fs w' !! info_path_of a = Some f ∧ plist_load (content f) = Some d
          ∧ leaf d [] "Product Version" = Some (VStr version')
          ∧ leaf d [] "Build Version" = Some (VStr build'))
  ∧ (∃ f d, w_fs w' !! manifest_path_of a = Some f ∧ plist_load (content f) = Some d
            ∧ leaf d ["Lockdown"] "ProductVersion" = Some (VStr version')
            ∧ leaf d ["Lockdown"] "BuildVersion" = Some (VStr build')).
Proof.
  intros Hlaw Hready. destruct (main_ready _ _ _ _ _ _ Hready) as [out Hmain].
  unfold run_main. rewrite Hmain.
  destruct (update_phase _ _ _ _ _) as [[o|u] w1] eqn:Hphase.
  - intros [= -> ->]. unfold update_phase in Hphase. revert Hphase.
    io_bind. rewrite update_one_eq.
    destruct (update_plist _ (info_path_of a) _ _ _ _ _ _) as [[err|[]] s1]; [done | |].
    all: cbn beta iota; io_bind; rewrite update_one_eq.
    all: by destruct (update_plist _ (manifest_path_of a) _ _ _ _ _ _) as [[err|[]] s2].
  - intros [= <-].
    destruct (update_phase_returned _ _ _ _ _ _ Hlaw Hphase) as (Hi & Hm & _). by split.
Qed.

(** X21. When both documents have the targets already, [main] changes
    nothing on the disk, makes no backup even with [--backup], and its last
    three lines say so. *)
Theorem main_nothing_to_do a w version' build' d_info d_manifest :
  ready h a w version' build' d_info d_manifest →
  leaf d_info [] "Product Version" = Some (VStr version') →
  leaf d_info [] "Build Version" = Some (VStr build') →
  leaf d_manifest ["Lockdown"] "ProductVersion" = Some (VStr version') →
  leaf d_manifest ["Lockdown"] "BuildVersion" = Some (VStr build') →
  ∃ out,
    run_main h a w
    = (Returned None,
       World (w_fs w) (tail (w_stdin w))
         (w_stdout w ++ out
          ++ ["Info.plist already has target versions. No change.";
              "Manifest.plist already has target versions. No change.";
              "No changes: Both plists already contained target versions."])).
Proof.
  intros Hready Hip Hib Hmp Hmb.
  pose proof Hready as (_ & (fi & Hfi & Hli) & (fm & Hfm & Hlm) & _).
  destruct (main_ready _ _ _ _ _ _ Hready) as [out Hmain].
  exists out. unfold run_main. rewrite Hmain.
  rewrite (update_phase_noop _ _ _ _ fi d_info fm d_manifest) by done.
  cbn [w_fs w_stdin w_stdout]. by rewrite <- !(assoc_L (++)).
Qed.

(** X22. Running the program again, with the same arguments and another
    yes, after a run that went to its end, changes nothing on the disk.
    ([plistlib.load] is assumed to read back what [plistlib.dump] wrote.) *)
Theorem main_twice a w version' build' d_info d_manifest w' :
  load_after_dump →
  ready h a w version' build' d_info d_manifest →
  run_main h a w = (Returned None, w') →
  (∃ line, head (w_stdin w') = Some line ∧ py_lower (py_strip line) ∈ ["y"; "yes"]) →
  w_fs (run_main h a w').2 = w_fs w'.
Proof.
  intros Hlaw Hready Hrun Hyes.
  destruct (main_ready _ _ _ _ _ _ Hready) as [out Hmain].
  unfold run_main in Hrun. rewrite Hmain in Hrun.
  destruct (update_phase _ _ _ _ _) as [[o|u] w1] eqn:Hphase.
  { injection Hrun as -> ->. exfalso. unfold update_phase in Hphase. revert Hphase.
    io_bind. rewrite update_one_eq.
    destruct (update_plist _ (info_path_of a) _ _ _ _ _ _) as [[err|[]] s1]; [done | |].
    all: cbn beta iota; io_bind; rewrite update_one_eq.
    all: by destruct (update_plist _ (manifest_path_of a) _ _ _ _ _ _) as [[err|[]] s2]. }
  injection Hrun as ->.
  destruct (update_phase_returned _ _ _ _ _ _ Hlaw Hphase)
    as ((fi & di & Hfi & Hli & Hip & Hib) & (fm & dm & Hfm & Hlm & Hmp & Hmb) & _).
  destruct Hready as (Hdir & _ & _ & _ & Hv & Hvne & Hb & Hbne).
  assert (ready h a w' version' build' di dm) as Hready'.
  { split; [done |]. split; [by exists fi |]. split; [by exists fm |]. done. }
  destruct (main_ready _ _ _ _ _ _ Hready') as [out' Hmain'].
  unfold run_main. rewrite Hmain'.
  by rewrite (update_phase_noop _ _ _ _ fi di fm dm).
Qed.

End main_facts.

Section unreadable.
Context `{Plistlib}.

(** X23. [update_plist] on a path that is not there raises
    [FileNotFoundError], and on a file that does not load
    [InvalidFileException]; in both cases the disk is as it was: no
    temporary file, and no backup even when one is asked for. *)
Theorem update_plist_unreadable e path product_version build_version make_backup
    key_path key_names (s : fs) :
  (s !! path = None →
   update_plist e path product_version build_version make_backup key_path key_names s
   = (inl FileNotFoundError, s))
  ∧ (∀ f, s !! path = Some f → plist_load (content f) = None →
     update_plist e path product_version build_version make_backup key_path key_names s
     = (inl InvalidFileException, s)).
Proof.
  split.
  - intros Hnone. by rewrite update_plist_unfold, Hnone.
  - intros f Hf Hload. by rewrite update_plist_unfold, Hf, Hload.
Qed.

End unreadable.

Section main_prompts.
Context `{Plistlib} `{Builtins} (h : host).

Ltac io_bind := unfold mbind at 1, IO_bind at 1.
Ltac io_ret := io_bind; unfold mret at 1, IO_ret at 1; cbn beta iota.
Ltac io_print := io_bind; unfold print at 1; cbn [w_fs w_stdin w_stdout]; cbn beta iota.

(** X24. After a yes, when [--version] is absent or empty and the line
    read for it is blank or there is none, [main] exits with the message
    for the product version, whatever [--build] is, and the disk is as it
    was. *)
Theorem main_no_product_version a w fi d_info fm d_manifest answer rest :
  is_dir h (py_expanduser (bundle a)) = true →
  w_fs w !! info_path_of a = Some fi →
  plist_load (content fi) = Some d_info →
  w_fs w !! manifest_path_of a = Some fm →
  plist_load (content fm) = Some d_manifest →
  w_stdin w = answer :: rest →
  py_lower (py_strip answer) ∈ ["y"; "yes"] →
  version a = None ∨ version a = Some EmptyString →
  (∀ line, head rest = Some line → py_strip line = EmptyString) →
  ∃ out,
    run_main h a w
    = (SystemExit "Error: No Product Version provided. Use --version or interactive prompt.",
       World (w_fs w) (tail rest) (w_stdout w ++ out)).
Proof.
  intros Hdir Hfi Hli Hfm Hlm Hin Hyes Hv Hblank.
  unfold run_main, main. cbn zeta. fold (info_path_of a) (manifest_path_of a).
  io_bind. rewrite validate_bundle_path_eq, Hdir. cbn [orb negb]. cbn beta iota.
  io_bind. rewrite missing_files_eq.
  rewrite filter_cons_False by (by rewrite Hfi).
  rewrite filter_cons_False by (by rewrite Hfm).
  rewrite filter_nil. cbn beta iota. io_ret.
  io_bind. rewrite run_read_versions, (read_versions_eq _ _ _ _ _ _ Hfi Hli).
  cbn [fst]. cbn beta iota.
  io_bind. rewrite run_read_versions, (read_versions_eq _ _ _ _ _ _ Hfm Hlm).
  cbn [fst]. cbn beta iota.
  io_print. io_print. io_print.
  io_bind. unfold input at 1. cbn [w_fs w_stdin w_stdout].
  rewrite Hin. cbn beta iota.
  rewrite (bool_decide_eq_true_2 _ Hyes). cbn [negb].
  assert (∀ k : string → IO unit,
            (match version a with
             | Some v =>
                 if bool_decide (v = EmptyString)
                 then answer ← input "Enter Product Version (e.g., 17.0): ";
                      mret (match answer with Some l => py_strip l | None => EmptyString end)
                 else mret v
             | None =>
                 answer ← input "Enter Product Version (e.g., 17.0): ";
                 mret (match answer with Some l => py_strip l | None => EmptyString end)
             end ≫= k)
            = (answer ← input "Enter Product Version (e.g., 17.0): ";
               mret (match answer with Some l => py_strip l | None => EmptyString end)) ≫= k)
    as Hask by (intros k; by destruct Hv as [->| ->]).
  rewrite Hask. clear Hask.
  io_bind. io_bind. unfold input at 1. cbn [w_fs w_stdin w_stdout].
  destruct rest as [|line rest']; cbn beta iota.
  - unfold mret at 1, IO_ret at 1. cbn beta iota.
    rewrite bool_decide_eq_true_2 by done. io_bind. unfold sys_exit at 1. cbn beta iota.
    rewrite <- !(assoc_L (++)). by eexists.
  - unfold mret at 1, IO_ret at 1. cbn beta iota.
    rewrite (Hblank line eq_refl).
    rewrite bool_decide_eq_true_2 by done. io_bind. unfold sys_exit at 1. cbn beta iota.
    rewrite <- !(assoc_L (++)). by eexists.
Qed.

End main_prompts.

(** ** The codec for nested documents is a codec *)

Module NestedCodecLaws.
Import TestCodec NestedCodec.

Lemma dec_items_nil (fuel : nat) (rest : list byte) :
  dec_items (S fuel) (x00 :: rest) = Some ([], rest).
Proof. reflexivity. Qed.

Lemma dec_items_cons (fuel : nat) (r : list byte) :
  dec_items (S fuel) (x01 :: r) =
  match dec_str r with
  | Some (k, r1) =>
      match dec fuel r1 with
      | Some (v, r2) =>
          match dec_items fuel r2 with
          | Some (l, r3) => Some ((k, v) :: l, r3)
          | None => None
          end
      | None => None
      end
  | None => None
  end.
Proof. reflexivity. Qed.

Lemma dec_str_case (fuel : nat) (r : list byte) :
  dec (S fuel) (x01 :: r) =
  match dec_str r with Some (s, r') => Some (VStr s, r') | None => None end.
Proof. reflexivity. Qed.

Lemma dec_dict_case (fuel : nat) (r : list byte) :
  dec (S fuel) (x02 :: r) =
  match dec_items fuel r with
  | Some (l, r') => Some (VDict (list_to_map l), r')
  | None => None
  end.
Proof. reflexivity. Qed.

Lemma dec_enc_items (n : nat) (rest : list byte) :
  (∀ (v : value) (bs : list byte), enc n v = Some bs →
   ∀ (fuel : nat) (rest : list byte), (length bs ≤ fuel)%nat →
   dec fuel (bs ++ rest) = Some (v, rest)) →
  ∀ (l : list (string * value)) (items : list (list byte)),
  Forall2 (λ kv item, enc_item (enc n) kv = Some item) l items →
  ∀ fuel, (length (concat items) < fuel)%nat →
  dec_items fuel (concat items ++ x00 :: rest) = Some (l, rest).
Proof.
  intros IH. induction 1 as [|[k v] item l items Hitem _ IHl]; intros fuel Hfuel.
  - destruct fuel as [|fuel]; [simpl in Hfuel; lia |]. apply dec_items_nil.
  - unfold enc_item in Hitem. simpl in Hitem.
    destruct (enc n v) as [bsv|] eqn:Hv; [|done]. injection Hitem as <-.
    destruct fuel as [|fuel]; [lia |].
    cbn [concat] in *. rewrite length_app in Hfuel. cbn [length] in Hfuel.
    rewrite length_app in Hfuel.
    rewrite <- (assoc_L (++)).
    change ((x01 :: enc_str k ++ bsv) ++ concat items ++ x00 :: rest)
      with (x01 :: ((enc_str k ++ bsv) ++ concat items ++ x00 :: rest)).
    rewrite <- (assoc_L (++)), dec_items_cons, TestCodecLaws.dec_enc_str.
    rewrite (IH _ _ Hv) by lia. by rewrite IHl by lia.
Qed.

Lemma dec_enc (n : nat) :
  ∀ (v : value) (bs : list byte), enc n v = Some bs →
  ∀ (fuel : nat) (rest : list byte), (length bs ≤ fuel)%nat →
  dec fuel (bs ++ rest) = Some (v, rest).
Proof.
  induction n as [|n IH]; intros v bs Henc fuel rest Hfuel; [done |].
  simpl in Henc. destruct v as [s| | | | | | |m]; try done.
  - injection Henc as <-. destruct fuel as [|fuel]; [simpl in Hfuel; lia |].
    change ((x01 :: enc_str s) ++ rest) with (x01 :: (enc_str s ++ rest)).
    by rewrite dec_str_case, TestCodecLaws.dec_enc_str.
  - destruct (mapM (enc_item (enc n)) (map_to_list m)) as [items|] eqn:Hitems; [|done].
    injection Henc as <-. destruct fuel as [|fuel]; [simpl in Hfuel; lia |].
    cbn [length] in Hfuel. rewrite length_app in Hfuel. cbn [length] in Hfuel.
    change ((x02 :: concat items ++ [x00]) ++ rest)
      with (x02 :: ((concat items ++ [x00]) ++ rest)).
    rewrite <- (assoc_L (++)). change ([x00] ++ rest) with (x00 :: rest).
    rewrite dec_dict_case.
    rewrite (dec_enc_items n rest IH (map_to_list m) items) by first [by apply mapM_Some | lia].
    by rewrite list_to_map_to_list.
Qed.

Lemma nested_load_after_dump : @load_after_dump plistlib.
Proof.
  intros data fmt bs. simpl. unfold dump, load.
  destruct (enc depth data) as [bs0|] eqn:Henc; [|done]. intros [= <-].
  assert (body (header fmt ++ bs0) = Some bs0) as ->.
  { destruct fmt; [apply TestCodecLaws.load_body_xml | apply TestCodecLaws.load_body_binary]. }
  rewrite <- (app_nil_r bs0) at 2.
  by rewrite (dec_enc _ _ _ Henc).
Qed.

End NestedCodecLaws.

(** ** The further properties on concrete runs *)

Module MoreRunsFacts.
Import Runs.

Local Existing Instance TestCodec.plistlib.

Local Ltac run := vm_compute; reflexivity.

(** The manifest whose [Lockdown] entry is a string: the segment is found. *)
Lemma ensure_path_dict_error_witness :
  ∃ pre k rest m v,
    ["Lockdown"] = pre ++ k :: rest
    ∧ deref bad_manifest pre = Some (VDict m)
    ∧ m !! k = Some v
    ∧ is_dict v = false.
Proof.
  assert (ensure_path_dict bad_manifest ["Lockdown"]
          = inl (ValueError (not_a_dictionary ["Lockdown"]))) as Hrun by run.
  destruct (ensure_path_dict_error _ _ _ Hrun) as [(_ & _ & Herr)|[_ Hseg]];
    [discriminate Herr | exact Hseg].
Defined.

(** [Lockdown] is made in a document that has none. *)
Lemma ensure_path_dict_result_witness :
  let root' := setitem info_doc [] "Lockdown" (VDict ∅) in
  ensure_path_dict info_doc ["Lockdown"] = inr (root', ["Lockdown"])
  ∧ deref root' ["Lockdown"] = Some (VDict ∅).
Proof.
  intros root'.
  assert (ensure_path_dict info_doc ["Lockdown"] = inr (root', ["Lockdown"])) as Hrun by run.
  assert (deref info_doc ["Lockdown"] = None) as Hnone by run.
  split; [exact Hrun |].
  exact (proj1 (proj2 (ensure_path_dict_result _ _ _ _ Hrun)) Hnone).
Defined.


(** A write that succeeds and a write that fails, over the same file. *)
Lemma atomic_write_plist_all_or_nothing_witness :
  (∃ bs, plist_dump half_doc FMT_BINARY = Some bs
         ∧ (atomic_write_plist quiet info_path half_doc FMT_BINARY disk).2 !! info_path
           = Some (File bs (mode info_file)))
  ∧ (atomic_write_plist disk_full info_path half_doc FMT_BINARY disk).2 !! info_path
    = Some info_file.
Proof.
  assert (disk !! info_path = Some info_file) as Hf by run.
  assert (atomic_write_plist quiet info_path half_doc FMT_BINARY disk
          = (inr tt, (atomic_write_plist quiet info_path half_doc FMT_BINARY disk).2))
    as Hok by run.
  assert (atomic_write_plist disk_full info_path half_doc FMT_BINARY disk
          = (inl OSError, (atomic_write_plist disk_full info_path half_doc FMT_BINARY disk).2))
    as Hfail by run.
  split.
  - exact (atomic_write_plist_all_or_nothing _ _ _ _ _ _ _ _ Hf Hok).
  - exact (atomic_write_plist_all_or_nothing _ _ _ _ _ _ _ _ Hf Hfail).
Defined.

(** The first write of a file, in an environment where [os.stat] fails. *)
Lemma atomic_write_plist_new_target_witness :
  let e := Env ["k3v8"] [] false true true false false false in
  atomic_write_plist e info_path info_doc FMT_BINARY ∅
  = (inr tt, <[info_path := File (content info_file) 384]> ∅).
Proof.
  intros e.
  assert ((∅ : fs) !! info_path = None) as Hpath by run.
  assert (mkstemp e ".plist.tmp_" (tmp_dir info_path) ∅
          = (inr tmp_name, <[tmp_name := File [] 384]> ∅)) as Hmk by run.
  assert (tmp_name ≠ info_path) as Hne by (vm_compute; discriminate).
  assert (plist_dump info_doc FMT_BINARY = Some (content info_file)) as Hdump by run.
  exact (atomic_write_plist_new_target e info_path info_doc FMT_BINARY ∅ tmp_name _ _
           Hpath Hmk Hne eq_refl Hdump eq_refl).
Defined.

(** The write over [Info.plist] returns where nothing fails. *)
Lemma atomic_write_plist_succeeds_iff_witness :
  (atomic_write_plist quiet info_path half_doc FMT_BINARY disk).1 = inr tt.
Proof.
  assert (disk !! info_path = Some info_file) as Hf by run.
  assert (mkstemp quiet ".plist.tmp_" (tmp_dir info_path) disk
          = (inr tmp_name, <[tmp_name := File [] 384]> disk)) as Hmk by run.
  assert (is_Some (plist_dump half_doc FMT_BINARY)) as Hdump.
  { exists (content half_file). run. }
  apply (proj2 (atomic_write_plist_succeeds_iff quiet info_path half_doc FMT_BINARY disk
                  _ _ _ Hf Hmk)).
  split; [reflexivity |]. split; [exact Hdump |]. split; [reflexivity |].
  split; reflexivity.
Defined.

(** The backup of [Info.plist], and a second call after the file changed. *)
Lemma backup_file_once_witness :
  let bak := info_path +:+ ".bak" in
  let s2 := <[info_path := half_file]> (<[bak := info_file]> disk) in
  backup_file quiet info_path s2 = (inr bak, s2).
Proof.
  intros bak s2.
  assert (backup_file quiet info_path disk = (inr bak, <[bak := info_file]> disk))
    as Hrun by run.
  assert (s2 !! bak = (<[bak := info_file]> disk : fs) !! bak) as Hsame by run.
  destruct (backup_file_once _ _ _ _ _ Hrun) as (_ & _ & _ & Hagain).
  exact (Hagain quiet s2 Hsame).
Defined.


(** The disk is full during the update. *)
Lemma update_plist_failure_keeps_files_witness :
  let s' := (update_plist disk_full info_path "17.0" "21A123" true None None disk).2 in
  s' !! info_path = disk !! info_path.
Proof.
  intros s'.
  assert (update_plist disk_full info_path "17.0" "21A123" true None None disk
          = (inl OSError, s')) as Hrun by run.
  exact (proj1 (update_plist_failure_keeps_files _ _ _ _ _ _ _ _ _ _ Hrun)).
Defined.

(** The update to the versions the document has. *)
Lemma update_plist_noop_witness :
  update_plist disk_full info_path "17.0" "20A123" true None None half_disk
  = (inr false, half_disk).
Proof.
  assert (half_disk !! info_path = Some half_file) as Hf by run.
  assert (plist_load (content half_file) = Some half_doc) as Hload by run.
  assert (leaf half_doc (default [] None) (prod_key None) = Some (VStr "17.0")) as Hp by run.
  assert (leaf half_doc (default [] None) (build_key None) = Some (VStr "20A123"))
    as Hb by run.
  exact (update_plist_noop disk_full info_path "17.0" "20A123" true None None half_disk
           half_file half_doc Hf Hload Hp Hb).
Defined.

(** An update with a backup, seen from another file of the directory. *)
Lemma update_plist_touches_only_witness :
  let s := <["Backup/Status.plist" := text_file]> disk in
  (update_plist quiet info_path "17.0" "21A123" true None None s).2 !! "Backup/Status.plist"
  = s !! "Backup/Status.plist".
Proof.
  intros s.
  assert (update_plist quiet info_path "17.0" "21A123" true None None s
          = (inr true, (update_plist quiet info_path "17.0" "21A123" true None None s).2))
    as Hrun by run.
  assert ("Backup/Status.plist" ≠ info_path) as Hp by (vm_compute; discriminate).
  assert ("Backup/Status.plist" ≠ info_path +:+ ".bak") as Hbak by (vm_compute; discriminate).
  exact (proj1 (update_plist_touches_only _ _ _ _ _ _ _ _ _ _ Hrun) _ Hp Hbak).
Defined.

(** Reading [Info.plist] after its update. *)
Lemma update_then_read_witness :
  let s' := (update_plist quiet info_path "17.0" "21A123" true None None disk).2 in
  read_versions info_path None true s' = (inr (Some (VStr "17.0"), Some (VStr "21A123")), s').
Proof.
  intros s'.
  assert (update_plist quiet info_path "17.0" "21A123" true None None disk = (inr true, s'))
    as Hrun by run.
  exact (update_then_read _ _ _ _ _ _ true _ _ _ TestCodecLaws.test_load_after_dump Hrun).
Defined.

End MoreRunsFacts.

(** ** The command-line program on concrete bundles *)

Module BundleRunsFacts.
Import BundleRuns.

Local Existing Instance NestedCodec.plistlib.
Local Existing Instance TestPython.builtins.

Local Ltac run := vm_compute; reflexivity.

(** The answer [ Yes ] is a yes. *)
Lemma yes_is_yes : py_lower (py_strip " Yes ") ∈ ["y"; "yes"].
Proof.
  assert (py_lower (py_strip " Yes ") = "yes") as -> by run.
  rewrite !elem_of_cons. right. left. reflexivity.
Qed.

(** A bundle with two plists that load, on a host where [Backup] is a
    directory, with a yes on the input, is ready. *)
Lemma ready_bundle (os_env : string → env) (info manifest : file) (d_info d_manifest : value) :
  plist_load (content info) = Some d_info →
  plist_load (content manifest) = Some d_manifest →
  ready (host_of os_env) cli (yes (bundle_of info manifest)) "17.0" "21A123"
    d_info d_manifest.
Proof.
  intros Hli Hlm.
  assert (bundle_of info manifest !! info_path_of cli = Some info) as Hfi.
  { unfold bundle_of. assert (info_path_of cli = "Backup/Info.plist") as -> by run.
    apply lookup_insert_eq. }
  assert (bundle_of info manifest !! manifest_path_of cli = Some manifest) as Hfm.
  { unfold bundle_of. assert (manifest_path_of cli = "Backup/Manifest.plist") as -> by run.
    rewrite lookup_insert_ne by discriminate. apply lookup_insert_eq. }
  split; [reflexivity |].
  split; [exists info; split; [exact Hfi | exact Hli] |].
  split; [exists manifest; split; [exact Hfm | exact Hlm] |].
  split; [exists " Yes "; split; [reflexivity | exact yes_is_yes] |].
  split; [reflexivity |]. split; [discriminate |]. split; [reflexivity | discriminate].
Qed.

Lemma ready_bundle_disk (os_env : string → env) :
  ready (host_of os_env) cli (yes bundle_disk) "17.0" "21A123" info_doc manifest_doc.
Proof. apply ready_bundle; run. Qed.

(** The update of a plist whose root is a string. *)
Lemma update_plist_root_not_dict_witness :
  update_plist Runs.quiet "note.plist" "17.0" "21A123" true (Some ["Lockdown"]) None note_disk
  = (inl TypeError, note_disk).
Proof.
  assert (note_disk !! "note.plist" = Some note_file) as Hf by run.
  assert (plist_load (content note_file) = Some (VStr "note")) as Hload by run.
  exact (update_plist_root_not_dict Runs.quiet "note.plist" "17.0" "21A123" true
           (Some ["Lockdown"]) None note_disk note_file (VStr "note") Hf Hload eq_refl).
Defined.

(** A directory without the two plists. *)
Lemma main_rejects_bad_bundle_witness :
  ∃ msg, run_main laptop cli (yes ∅) = (SystemExit msg, yes ∅).
Proof.
  assert (w_fs (yes ∅) !! info_path_of cli = None) as Hnone by run.
  exact (main_rejects_bad_bundle laptop cli (yes ∅) (or_intror (or_introl Hnone))).
Defined.

(** An [Info.plist] that is no plist. *)
Lemma main_unreadable_plist_witness :
  run_main laptop cli (yes garbled_disk) = (Raised InvalidFileException, yes garbled_disk).
Proof.
  assert (w_fs (yes garbled_disk) !! info_path_of cli = Some garbled_file) as Hfi by run.
  assert (w_fs (yes garbled_disk) !! manifest_path_of cli = Some manifest_file) as Hfm by run.
  assert (plist_load (content garbled_file) = None) as Hli by run.
  exact (main_unreadable_plist laptop cli (yes garbled_disk) garbled_file manifest_file
           eq_refl Hfi Hfm (or_introl Hli)).
Defined.

(** The user answers no. *)
Lemma main_without_yes_keeps_disk_witness :
  w_fs (run_main laptop cli (no bundle_disk)).2 = bundle_disk.
Proof.
  apply (main_without_yes_keeps_disk laptop cli (no bundle_disk)).
  intros line [= <-].
  assert (py_lower (py_strip "n") = "n") as -> by run.
  rewrite !elem_of_cons, elem_of_nil. intros [Hn|[Hn|Hn]]; [discriminate Hn.. | exact Hn].
Defined.

(** The disk is full while [Info.plist] is written. *)
Lemma main_info_failure_witness :
  let h := full_at "Backup/Info.plist" in
  let s1 := w_fs (run_main h cli (yes bundle_disk)).2 in
  s1 !! info_path_of cli = bundle_disk !! info_path_of cli
  ∧ s1 !! manifest_path_of cli = bundle_disk !! manifest_path_of cli.
Proof.
  intros h s1.
  assert (update_plist (os_env h (info_path_of cli)) (info_path_of cli) "17.0" "21A123"
            (backup cli) None info_names (w_fs (yes bundle_disk)) = (inl OSError, s1))
    as Hrun by run.
  exact (proj2 (main_info_failure h cli (yes bundle_disk) "17.0" "21A123" info_doc
                  manifest_doc OSError s1 (ready_bundle_disk _) Hrun)).
Defined.

(** The disk is full while [Manifest.plist] is written: [Info.plist] has
    the new versions, [Manifest.plist] the old ones. *)
Lemma main_manifest_failure_witness :
  let h := full_at "Backup/Manifest.plist" in
  let s2 := w_fs (run_main h cli (yes bundle_disk)).2 in
  s2 !! info_path_of cli = new_disk !! info_path_of cli
  ∧ s2 !! manifest_path_of cli = bundle_disk !! manifest_path_of cli.
Proof.
  intros h s2.
  pose (s1 := (update_plist (os_env h (info_path_of cli)) (info_path_of cli) "17.0" "21A123"
                 (backup cli) None info_names bundle_disk).2).
  assert (update_plist (os_env h (info_path_of cli)) (info_path_of cli) "17.0" "21A123"
            (backup cli) None info_names (w_fs (yes bundle_disk)) = (inr true, s1))
    as Hrun1 by run.
  assert (update_plist (os_env h (manifest_path_of cli)) (manifest_path_of cli) "17.0" "21A123"
            (backup cli) (Some ["Lockdown"]) manifest_names s1 = (inl OSError, s2))
    as Hrun2 by run.
  assert (s1 !! info_path_of cli = new_disk !! info_path_of cli) as Hnew by run.
  destruct (main_manifest_failure h cli (yes bundle_disk) "17.0" "21A123" info_doc manifest_doc
              true s1 OSError s2 (ready_bundle_disk _) Hrun1 Hrun2) as (_ & Hinfo & Hman).
  split; [rewrite Hinfo; exact Hnew | exact Hman].
Defined.

(** A run to the end. *)
Lemma main_returned_has_targets_witness :
  let w' := (run_main laptop cli (yes bundle_disk)).2 in
  (∃ f d, w_fs w' !! info_path_of cli = Some f ∧ plist_load (content f) = Some d
          ∧ leaf d [] "Product Version" = Some (VStr "17.0")
          ∧ leaf d [] "Build Version" = Some (VStr "21A123"))
  ∧ (∃ f d, w_fs w' !! manifest_path_of cli = Some f ∧ plist_load (content f) = Some d
            ∧ leaf d ["Lockdown"] "ProductVersion" = Some (VStr "17.0")
            ∧ leaf d ["Lockdown"] "BuildVersion" = Some (VStr "21A123")).
Proof.
  intros w'.
  assert (run_main laptop cli (yes bundle_disk) = (Returned None, w')) as Hrun by run.
  exact (main_returned_has_targets laptop cli (yes bundle_disk) "17.0" "21A123" info_doc
           manifest_doc w' NestedCodecLaws.nested_load_after_dump (ready_bundle_disk _) Hrun).
Defined.

(** A bundle that has the versions. *)
Lemma main_nothing_to_do_witness :
  ∃ out,
    run_main laptop cli (yes new_disk)
    = (Returned None,
       World new_disk ["y"]
         (out ++ ["Info.plist already has target versions. No change.";
                  "Manifest.plist already has target versions. No change.";
                  "No changes: Both plists already contained target versions."])).
Proof.
  assert (ready laptop cli (yes new_disk) "17.0" "21A123" new_info_doc new_manifest_doc)
    as Hready by (apply ready_bundle; run).
  assert (leaf new_info_doc [] "Product Version" = Some (VStr "17.0")) as Hip by run.
  assert (leaf new_info_doc [] "Build Version" = Some (VStr "21A123")) as Hib by run.
  assert (leaf new_manifest_doc ["Lockdown"] "ProductVersion" = Some (VStr "17.0"))
    as Hmp by run.
  assert (leaf new_manifest_doc ["Lockdown"] "BuildVersion" = Some (VStr "21A123"))
    as Hmb by run.
  exact (main_nothing_to_do laptop cli (yes new_disk) "17.0" "21A123" new_info_doc
           new_manifest_doc Hready Hip Hib Hmp Hmb).
Defined.

(** Two runs, one after the other. *)
Lemma main_twice_witness :
  let w' := (run_main laptop cli (yes bundle_disk)).2 in
  w_fs (run_main laptop cli w').2 = w_fs w'.
Proof.
  intros w'.
  assert (run_main laptop cli (yes bundle_disk) = (Returned None, w')) as Hrun by run.
  assert (∃ line, head (w_stdin w') = Some line ∧ py_lower (py_strip line) ∈ ["y"; "yes"])
    as Hyes.
  { exists "y". split; [run |].
    assert (py_lower (py_strip "y") = "y") as -> by run.
    rewrite !elem_of_cons. left. reflexivity. }
  exact (main_twice laptop cli (yes bundle_disk) "17.0" "21A123" info_doc manifest_doc w'
           NestedCodecLaws.nested_load_after_dump (ready_bundle_disk _) Hrun Hyes).
Defined.

(** The update of an [Info.plist] that is no plist. *)
Lemma update_plist_unreadable_witness :
  update_plist Runs.quiet "Backup/Info.plist" "17.0" "21A123" true None None garbled_disk
  = (inl InvalidFileException, garbled_disk).
Proof.
  assert (garbled_disk !! "Backup/Info.plist" = Some garbled_file) as Hf by run.
  assert (plist_load (content garbled_file) = None) as Hload by run.
  exact (proj2 (update_plist_unreadable Runs.quiet "Backup/Info.plist" "17.0" "21A123" true
                  None None garbled_disk) garbled_file Hf Hload).
Defined.

(** No [--version], and a blank line where the version is asked for. *)
Lemma main_no_product_version_witness :
  ∃ out,
    run_main laptop (Args "Backup" None (Some "21A123") true)
      (World bundle_disk ["y"; "  "] [])
    = (SystemExit "Error: No Product Version provided. Use --version or interactive prompt.",
       World bundle_disk [] out).
Proof.
  pose (a := Args "Backup" None (Some "21A123") true).
  assert (bundle_disk !! info_path_of a = Some info_file) as Hfi by run.
  assert (plist_load (content info_file) = Some info_doc) as Hli by run.
  assert (bundle_disk !! manifest_path_of a = Some manifest_file) as Hfm by run.
  assert (plist_load (content manifest_file) = Some manifest_doc) as Hlm by run.
  assert (py_lower (py_strip "y") ∈ ["y"; "yes"]) as Hyes.
  { assert (py_lower (py_strip "y") = "y") as -> by run.
    rewrite !elem_of_cons. left. reflexivity. }
  assert (∀ line, head ["  "] = Some line → py_strip line = EmptyString) as Hblank.
  { intros line [= <-]. run. }
  exact (main_no_product_version laptop a (World bundle_disk ["y"; "  "] []) info_file
           info_doc manifest_file manifest_doc "y" ["  "] eq_refl Hfi Hli Hfm Hlm eq_refl
           Hyes (or_introl eq_refl) Hblank).
Defined.

End BundleRunsFacts.
